(** * tldrpp: the cache / parse / search / render core of [tldrpp/cache.py]

    A shallow embedding of the classes [IndexEntry], [Placeholder],
    [Example], [Page] and [CacheManager], and of the parts of Python's
    [str], [re] and [json] they call, followed by the theorems that settle
    the claims of the specification.  The callers in [tldrpp/app.py]
    ([render_command], [execute_command] and the check for destructive
    commands) and the reading of [--vars] in [tldrpp/cli.py] are embedded
    too, with the properties that the code shows for them.

    Conventions of the embedding.
    - A Python [str] is a Rocq [string]; a character stands for the code point
      of the same number, so the development covers text whose code points
      are below 256.
    - A Python exception is a value of [exn]; a function that may raise
      returns a [result].
    - The cache directory is a value of [Cache.t]: the content of
      [index.json], when the file exists, and the page files, addressed by
      platform and name.  A file holds the text that was written to it; the
      files are open in text mode, on a system whose line separator is the
      line feed: writing stores the text as it is, and reading gives it with
      every carriage return, alone or before a line feed, turned into a line
      feed ([Io.read_text]).
    - Each method is embedded as its own lines stand.  The compiler refuses
      one literal of the module, the f-string of line 62 in [Example.render]:
      that method has no code, and a call of it has the compiler's error for
      result; the other methods are read as they are written. *)

From Stdlib Require Import String Ascii List Bool Arith ZArith Lia Sorting.Sorted
  Sorting.Permutation.
From stdpp Require Import base option list strings gmap.

Local Open Scope Z_scope.

(** ** Exceptions and results *)

Inductive exn : Type :=
| TypeError (msg : string)
| ValueError (msg : string)
| KeyError (key : string)
| AttributeError (msg : string)
| FileNotFoundError
| JSONDecodeError (msg : string)
| re_error (msg : string)
| SyntaxError (msg : string)
| OSError
| OutsideLatin1.

Inductive result (A : Type) : Type :=
| Ok (a : A)
| Raise (e : exn).
Arguments Ok {A} a.
Arguments Raise {A} e.

#[global] Instance result_ret : MRet result := fun A a => Ok a.
#[global] Instance result_bind : MBind result := fun A B f m =>
  match m with
  | Ok a => f a
  | Raise e => Raise e
  end.
#[global] Instance result_fmap : FMap result := fun A B f m =>
  match m with
  | Ok a => Ok (f a)
  | Raise e => Raise e
  end.

(** [for x in l: acc = body(acc, x)], where the body may raise. *)
Fixpoint for_each {A S : Type} (body : S -> A -> result S) (l : list A) (acc : S)
  : result S :=
  match l with
  | [] => Ok acc
  | x :: l' => acc' ← body acc x; for_each body l' acc'
  end.

(** ** Python's [str] *)

Module Str.

Definition code (c : ascii) : nat := nat_of_ascii c.

(** [bool(s)]: a string is true when it is not empty. *)
Definition truthy (s : string) : bool :=
  match s with
  | EmptyString => false
  | String _ _ => true
  end.

(** [c.lower()] on the code points below 256: [A-Z], and the letters
    U+00C0..U+00DE except the multiplication sign U+00D7. *)
Definition lower_char (c : ascii) : ascii :=
  let n := code c in
  if ((65 <=? n) && (n <=? 90))%nat
     || ((192 <=? n) && (n <=? 222) && negb (n =? 215))%nat
  then ascii_of_nat (n + 32)
  else c.

Fixpoint lower (s : string) : string :=
  match s with
  | EmptyString => EmptyString
  | String c t => String (lower_char c) (lower t)
  end.

(** [s.startswith(p)] *)
Fixpoint startswith (s p : string) {struct p} : bool :=
  match p with
  | EmptyString => true
  | String b p' =>
      match s with
      | EmptyString => false
      | String a s' => if Ascii.eqb a b then startswith s' p' else false
      end
  end.

(** [needle in hay] *)
Fixpoint contains (needle hay : string) : bool :=
  if startswith hay needle then true
  else match hay with
       | EmptyString => false
       | String _ t => contains needle t
       end.

(** [s[n:]] *)
Fixpoint drop (n : nat) (s : string) : string :=
  match n, s with
  | O, _ => s
  | S _, EmptyString => EmptyString
  | S k, String _ t => drop k t
  end.

(** [s[:-1]] *)
Fixpoint drop_last (s : string) : string :=
  match s with
  | EmptyString => EmptyString
  | String c t =>
      match t with
      | EmptyString => EmptyString
      | String _ _ => String c (drop_last t)
      end
  end.

Fixpoint last (s : string) : option ascii :=
  match s with
  | EmptyString => None
  | String c t =>
      match t with
      | EmptyString => Some c
      | String _ _ => last t
      end
  end.

(** [s.endswith(c)] for a one-character [c] *)
Definition endswith_char (s : string) (c : ascii) : bool :=
  match last s with
  | Some d => Ascii.eqb d c
  | None => false
  end.

(** [c.isspace()] on the code points below 256. *)
Definition isspace (c : ascii) : bool :=
  let n := code c in
  (((9 <=? n) && (n <=? 13)) || ((28 <=? n) && (n <=? 32))
   || (n =? 133) || (n =? 160))%nat.

Fixpoint lstrip (s : string) : string :=
  match s with
  | EmptyString => EmptyString
  | String c t => if isspace c then lstrip t else s
  end.

Fixpoint rstrip (s : string) : string :=
  match s with
  | EmptyString => EmptyString
  | String c t =>
      match rstrip t with
      | EmptyString => if isspace c then EmptyString else String c EmptyString
      | r => String c r
      end
  end.

(** [s.strip()] *)
Definition strip (s : string) : string := rstrip (lstrip s).

(** [s.split("\n")]: the first line and the remaining ones. *)
Fixpoint split_lines_aux (s : string) : string * list string :=
  match s with
  | EmptyString => (EmptyString, [])
  | String c t =>
      let '(first, others) := split_lines_aux t in
      if Ascii.eqb c "010"%char then (EmptyString, first :: others)
      else (String c first, others)
  end.

Definition split_lines (s : string) : list string :=
  let '(first, others) := split_lines_aux s in first :: others.

(** [a <= b] on strings: lexicographic on code points. *)
Fixpoint leb (a b : string) : bool :=
  match a, b with
  | EmptyString, _ => true
  | String _ _, EmptyString => false
  | String x a', String y b' =>
      if (code x <? code y)%nat then true
      else if (code y <? code x)%nat then false
      else leb a' b'
  end.

(** [sep.join(l)] *)
Fixpoint join (sep : string) (l : list string) : string :=
  match l with
  | [] => EmptyString
  | [x] => x
  | x :: l' => x +:+ sep +:+ join sep l'
  end.

End Str.

(** ** Files in text mode *)

Module Io.

Definition CR : ascii := "013"%char.
Definition LF : ascii := "010"%char.

(** [f.read()] on a file open in text mode ([newline=None]): what the file
    holds, with each line end [CR LF] and each lone [CR] read as [LF]. *)
Fixpoint read_text (stored : string) : string :=
  match stored with
  | EmptyString => EmptyString
  | String c t =>
      if Ascii.eqb c CR then
        String LF
          match t with
          | String d t' => if Ascii.eqb d LF then read_text t' else read_text t
          | EmptyString => EmptyString
          end
      else String c (read_text t)
  end.

End Io.

(** ** Binding the arguments of a call

    The positional and keyword arguments of a call are bound to the
    parameters of the callee (after [self]), each with its default when it
    has one.  The result lists the value of every
    parameter, in the order of the signature. *)

Section Call.
Context {V : Type}.

Definition param_names (params : list (string * option V)) : list string :=
  map fst params.

Fixpoint index_of (k : string) (names : list string) : option nat :=
  match names with
  | [] => None
  | n :: rest => if String.eqb n k then Some O else S <$> index_of k rest
  end.

Fixpoint kw_lookup (k : string) (kwargs : list (string * V)) : option V :=
  match kwargs with
  | [] => None
  | (k', v) :: rest => if String.eqb k' k then Some v else kw_lookup k rest
  end.

Fixpoint check_keywords (names : list string) (npos : nat)
  (kwargs : list (string * V)) : result unit :=
  match kwargs with
  | [] => Ok tt
  | (k, _) :: rest =>
      match index_of k names with
      | None => Raise (TypeError ("got an unexpected keyword argument '" +:+ k +:+ "'"))
      | Some i =>
          if (i <? npos)%nat
          then Raise (TypeError ("got multiple values for argument '" +:+ k +:+ "'"))
          else check_keywords names npos rest
      end
  end.

Fixpoint fill (params : list (string * option V)) (args : list V)
  (kwargs : list (string * V)) : result (list V) :=
  match params with
  | [] => Ok []
  | (k, dflt) :: params' =>
      match args with
      | a :: args' => vs ← fill params' args' kwargs; Ok (a :: vs)
      | [] =>
          match kw_lookup k kwargs, dflt with
          | Some v, _ | None, Some v => vs ← fill params' [] kwargs; Ok (v :: vs)
          | None, None =>
              Raise (TypeError ("missing 1 required positional argument: '" +:+ k +:+ "'"))
          end
      end
  end.

Definition bind_arguments (params : list (string * option V)) (args : list V)
  (kwargs : list (string * V)) : result (list V) :=
  if (length params <? length args)%nat
  then Raise (TypeError "too many positional arguments")
  else _ ← check_keywords (param_names params) (length args) kwargs;
       fill params args kwargs.
End Call.

(** ** The data classes *)

Module IndexEntry.
Record t : Type := Build { name : string; description : string; platform : string }.
End IndexEntry.

Module Placeholder.
Record t : Type :=
  Build { name : string; type : string; description : string; default : string }.

(** [def __init__(self, name, type_="text", description="", default="")] *)
Definition signature : list (string * option string) :=
  [("name", None); ("type_", Some "text"); ("description", Some ""); ("default", Some "")].

Definition __init__ (args : list string) (kwargs : list (string * string)) : result t :=
  vs ← bind_arguments signature args kwargs;
  match vs with
  | [n; ty; d; df] => Ok (Build n ty d df)
  | _ => Raise (TypeError "Placeholder.__init__")
  end.
End Placeholder.

(** ** Python's [re], as far as [cache.py] uses it *)

Module Re.

Definition lbrace : ascii := "{"%char.
Definition rbrace : ascii := "}"%char.
Definition backslash : ascii := "\"%char.

(** A decimal digit. *)
Definition is_digit (c : ascii) : bool := ((48 <=? Str.code c) && (Str.code c <=? 57))%nat.

(** The longest run of characters other than the closing brace, and what follows it:
    the greedy [[^}]+]. *)
Fixpoint span_not_rbrace (s : string) : string * string :=
  match s with
  | EmptyString => (EmptyString, EmptyString)
  | String c t =>
      if Ascii.eqb c rbrace then (EmptyString, s)
      else let '(run, rest) := span_not_rbrace t in (String c run, rest)
  end.

(** A match of [\{\{([^}]+)\}\}] at the start of [s]: its group 1.  The run
    of [[^}]+] is followed by a closing brace or by the end of the text, so
    giving characters back never helps the match. *)
Definition match_placeholder (s : string) : option string :=
  match s with
  | String a (String b t) =>
      if Ascii.eqb a lbrace && Ascii.eqb b lbrace then
        match span_not_rbrace t with
        | (EmptyString, _) => None
        | (run, String c (String d _)) =>
            if Ascii.eqb c rbrace && Ascii.eqb d rbrace then Some run else None
        | _ => None
        end
      else None
  | _ => None
  end.

(** [pattern.findall(s)] for that pattern: the matches from left to right,
    the search resuming after each match.  [skip] counts the characters of
    the last match that are still to be passed. *)
Fixpoint findall_from (skip : nat) (s : string) : list string :=
  match s with
  | EmptyString => []
  | String _ t =>
      match skip with
      | S k => findall_from k t
      | O =>
          match match_placeholder s with
          | Some name => name :: findall_from (String.length name + 3) t
          | None => findall_from 0 t
          end
      end
  end.

Definition findall_placeholders (s : string) : list string := findall_from 0 s.

(** The text of a token: what that pattern matches when its group is
    [name]. *)
Definition token (name : string) : string := "{{" +:+ name +:+ "}}".

End Re.

(** ** f-strings, as the compiler reads them *)

Module FString.

(** The pieces of an f-string: a character of its text, or a replacement
    field with the text between its braces. *)
Inductive piece : Type :=
| Lit (c : ascii)
| Field (text : string).

(** The message of the compiler up to Python 3.11.  Since Python 3.12 a
    backslash outside of a string literal of the expression is read as a
    line continuation, and the message is "unexpected character after line
    continuation character". *)
Definition backslash_refused : string :=
  "f-string expression part cannot include a backslash".

Definition opens (c : ascii) : bool :=
  Ascii.eqb c "(" || Ascii.eqb c "[" || Ascii.eqb c "{".

Definition closes (c : ascii) : bool :=
  Ascii.eqb c ")" || Ascii.eqb c "]" || Ascii.eqb c "}".

(** The scan of the body of a raw f-string, from left to right.  Outside of
    a field ([field = None]) a doubled brace is a brace, a single opening
    brace opens a replacement field and a backslash is a character like any
    other (the string is raw).  Inside a field ([field] holds the number of
    brackets open in it and its text so far) the closing brace that matches
    ends the field, and a backslash is refused.  The text of a field is kept
    whole: its string literals, its conversion and its format specification
    are not told apart, so the scan is the compiler's for the fields without
    them, and for every field up to its first backslash. *)
Fixpoint scan (field : option (nat * string)) (s : string) : result (list piece) :=
  match s with
  | EmptyString =>
      match field with
      | None => Ok []
      | Some _ => Raise (SyntaxError "f-string: expecting '}'")
      end
  | String c t =>
      match field with
      | None =>
          if Ascii.eqb c "{" then
            match t with
            | String d t' =>
                if Ascii.eqb d "{" then cons (Lit "{") <$> scan None t'
                else scan (Some (O, EmptyString)) t
            | EmptyString => scan (Some (O, EmptyString)) t
            end
          else if Ascii.eqb c "}" then
            match t with
            | String d t' =>
                if Ascii.eqb d "}" then cons (Lit "}") <$> scan None t'
                else Raise (SyntaxError "f-string: single '}' is not allowed")
            | EmptyString => Raise (SyntaxError "f-string: single '}' is not allowed")
            end
          else cons (Lit c) <$> scan None t
      | Some (depth, text) =>
          if Ascii.eqb c "\" then Raise (SyntaxError backslash_refused)
          else if Ascii.eqb c "}" && Nat.eqb depth 0
          then cons (Field text) <$> scan None t
          else
            let depth' := if opens c then S depth
                          else if closes c then Nat.pred depth else depth in
            scan (Some (depth', text +:+ String c EmptyString)) t
      end
  end.

Definition read (body : string) : result (list piece) := scan None body.

End FString.

Module Example.
Record t : Type :=
  Build { description : string; command : string; placeholders : list Placeholder.t }.

(** What a call of the constructor may pass; the call sites of [cache.py]
    and of its tests pass strings for the first two parameters and a list
    or nothing for the third. *)
Inductive arg : Type :=
| Text (s : string)
| Placeholders (l : list Placeholder.t)
| PyNone.

(** [def __init__(self, description, command, placeholders=None)] *)
Definition signature : list (string * option arg) :=
  [("description", None); ("command", None); ("placeholders", Some PyNone)].

(** [self.placeholders = placeholders or []] *)
Definition __init__ (args : list arg) (kwargs : list (string * arg)) : result t :=
  vs ← bind_arguments signature args kwargs;
  match vs with
  | [Text d; Text c; Placeholders l] => Ok (Build d c l)
  | [Text d; Text c; PyNone] => Ok (Build d c [])
  | _ => Raise (TypeError "Example.__init__: argument outside the annotated types")
  end.

(** [value = variables.get(placeholder.name, placeholder.default)], then
    the placeholder's name when that value is empty. *)
Definition resolve (variables : gmap string string) (placeholder : Placeholder.t) : string :=
  let value := default (Placeholder.default placeholder)
                 (variables !! Placeholder.name placeholder) in
  if Str.truthy value then value else Placeholder.name placeholder.

(** The literal of line 62, between the quotes of [rf"..."]. *)
Definition pattern_literal : string := "\{\{{{re.escape(placeholder.name)}}}\}}".

Section Render.
(** Lines 62 and 63 for a literal that the compiler accepts: the pieces of
    the literal formatted in the scope of the loop, [re.compile] of that
    text, and [sub] with the value on the command.  The embedding leaves
    this open: [render] is what follows for every such function. *)
Variable substitute : list FString.piece -> Placeholder.t -> string -> string -> result string.

Definition render_step (pieces : list FString.piece) (variables : gmap string string)
  (command : string) (placeholder : Placeholder.t) : result string :=
  substitute pieces placeholder (resolve variables placeholder) command.

(** The body of the method is compiled before any call, the literal of
    line 62 with it. *)
Definition render (self : t) (variables : gmap string string) : result string :=
  pieces ← FString.read pattern_literal;
  for_each (render_step pieces variables) (placeholders self) (command self).
End Render.
End Example.

Module Page.
Record t : Type :=
  Build { name : string; description : string; platform : string;
          examples : list Example.t; raw_content : string }.
End Page.

(** ** The cache directory *)

Module Cache.
Record t : Type :=
  Build { index_json : option string;
          page_files : gmap (string * string) string }.
End Cache.

(** ** Python's [json]: [json.dump(data, f, indent=2)] and [json.load(f)] *)

Module Json.

#[local] Unset Elimination Schemes.
Inductive value : Type :=
| Text (s : string)
| Arr (items : list value)
| Obj (members : list (string * value))
| Num (literal : string)
| Boolean (b : bool)
| Null.
#[local] Set Elimination Schemes.

Definition quote : ascii := "034"%char.
Definition newline : ascii := "010"%char.

(** *** Encoding *)

Definition hex_digit (n : nat) : ascii :=
  if (n <? 10)%nat then ascii_of_nat (48 + n) else ascii_of_nat (87 + n).

(** One character of a string, as [encode_basestring_ascii] writes it. *)
Definition escape (c : ascii) (k : string) : string :=
  let n := Str.code c in
  if Ascii.eqb c quote then String Re.backslash (String quote k)
  else if Ascii.eqb c Re.backslash then String Re.backslash (String Re.backslash k)
  else if (n =? 8)%nat then String Re.backslash (String "b" k)
  else if (n =? 12)%nat then String Re.backslash (String "f" k)
  else if (n =? 10)%nat then String Re.backslash (String "n" k)
  else if (n =? 13)%nat then String Re.backslash (String "r" k)
  else if (n =? 9)%nat then String Re.backslash (String "t" k)
  else if ((32 <=? n) && (n <=? 126))%nat then String c k
  else String Re.backslash
         (String "u" (String "0" (String "0"
            (String (hex_digit (n / 16)) (String (hex_digit (n mod 16)) k))))).

Fixpoint escape_all (s : string) (k : string) : string :=
  match s with
  | EmptyString => k
  | String c t => escape c (escape_all t k)
  end.

Definition encode_basestring_ascii (s : string) : string :=
  String quote (escape_all s (String quote EmptyString)).

Fixpoint spaces (n : nat) : string :=
  match n with
  | O => EmptyString
  | S k => String " " (spaces k)
  end.

(** A line break and the indentation of a nesting level, for [indent=2]. *)
Definition newline_indent (level : nat) : string := String newline (spaces (2 * level)).

Fixpoint encode (level : nat) (v : value) {struct v} : string :=
  match v with
  | Text s => encode_basestring_ascii s
  | Num literal => literal
  | Boolean true => "true"
  | Boolean false => "false"
  | Null => "null"
  | Arr [] => "[]"
  | Arr items =>
      "[" +:+ newline_indent (S level)
      +:+ Str.join ("," +:+ newline_indent (S level)) (map (encode (S level)) items)
      +:+ newline_indent level +:+ "]"
  | Obj [] => "{}"
  | Obj members =>
      "{" +:+ newline_indent (S level)
      +:+ Str.join ("," +:+ newline_indent (S level))
            (map (fun kv => encode_basestring_ascii (fst kv) +:+ ": "
                            +:+ encode (S level) (snd kv)) members)
      +:+ newline_indent level +:+ "}"
  end.

Definition dumps (v : value) : string := encode 0 v.

(** *** Decoding *)

Definition is_ws (c : ascii) : bool :=
  Ascii.eqb c " " || Ascii.eqb c "009" || Ascii.eqb c "010" || Ascii.eqb c "013".

Fixpoint skip_ws (s : string) : string :=
  match s with
  | EmptyString => EmptyString
  | String c t => if is_ws c then skip_ws t else s
  end.

Definition hex_value (c : ascii) : option nat :=
  let n := Str.code c in
  if ((48 <=? n) && (n <=? 57))%nat then Some (n - 48)%nat
  else if ((97 <=? n) && (n <=? 102))%nat then Some (n - 87)%nat
  else if ((65 <=? n) && (n <=? 70))%nat then Some (n - 55)%nat
  else None.

(** The table [BACKSLASH] of the decoder. *)
Definition unescape (c : ascii) : option ascii :=
  if Ascii.eqb c quote then Some quote
  else if Ascii.eqb c Re.backslash then Some Re.backslash
  else if Ascii.eqb c "/" then Some "/"%char
  else if Ascii.eqb c "b" then Some "008"%char
  else if Ascii.eqb c "f" then Some "012"%char
  else if Ascii.eqb c "n" then Some "010"%char
  else if Ascii.eqb c "r" then Some "013"%char
  else if Ascii.eqb c "t" then Some "009"%char
  else None.

(** [scanstring], after the opening quote: the string and what follows its
    closing quote.  A code point of 256 or more has no character in this
    embedding and is reported as [OutsideLatin1]. *)
Fixpoint scanstring (s : string) : result (string * string) :=
  match s with
  | EmptyString => Raise (JSONDecodeError "Unterminated string")
  | String c t =>
      if Ascii.eqb c quote then Ok (EmptyString, t)
      else if Ascii.eqb c Re.backslash then
        match t with
        | EmptyString => Raise (JSONDecodeError "Unterminated string")
        | String e t' =>
            if Ascii.eqb e "u" then
              match t' with
              | String h1 (String h2 (String h3 (String h4 t''))) =>
                  match hex_value h1, hex_value h2, hex_value h3, hex_value h4 with
                  | Some a, Some b, Some c', Some d =>
                      if ((a =? 0) && (b =? 0))%nat then
                        '(str, rest) ← scanstring t'';
                        Ok (String (ascii_of_nat (c' * 16 + d)) str, rest)
                      else Raise OutsideLatin1
                  | _, _, _, _ => Raise (JSONDecodeError "Invalid \uXXXX escape")
                  end
              | _ => Raise (JSONDecodeError "Invalid \uXXXX escape")
              end
            else
              match unescape e with
              | Some x => '(str, rest) ← scanstring t'; Ok (String x str, rest)
              | None => Raise (JSONDecodeError "Invalid \escape")
              end
        end
      else if (Str.code c <? 32)%nat then Raise (JSONDecodeError "Invalid control character")
      else '(str, rest) ← scanstring t; Ok (String c str, rest)
  end.

(** The longest run of decimal digits. *)
Fixpoint span_digits (s : string) : string * string :=
  match s with
  | EmptyString => (EmptyString, EmptyString)
  | String c t =>
      if Re.is_digit c then let '(d, rest) := span_digits t in (String c d, rest)
      else (EmptyString, s)
  end.

(** [NUMBER_RE]: an integer part, then a fraction and an exponent when
    they are complete.  The text matched stands for the number. *)
Definition match_number (s : string) : option (string * string) :=
  let '(sign, s1) :=
    match s with
    | String c t => if Ascii.eqb c "-" then ("-", t) else (EmptyString, s)
    | EmptyString => (EmptyString, s)
    end in
  let int_part :=
    match s1 with
    | String c t =>
        if Ascii.eqb c "0" then Some ("0", t)
        else if Re.is_digit c then let '(d, rest) := span_digits s1 in Some (d, rest)
        else None
    | EmptyString => None
    end in
  match int_part with
  | None => None
  | Some (digits, s2) =>
      let '(frac, s3) :=
        match s2 with
        | String c t =>
            if Ascii.eqb c "." then
              match span_digits t with
              | (EmptyString, _) => (EmptyString, s2)
              | (d, rest) => (String c d, rest)
              end
            else (EmptyString, s2)
        | EmptyString => (EmptyString, s2)
        end in
      let '(exp, s4) :=
        match s3 with
        | String c t =>
            if Ascii.eqb c "e" || Ascii.eqb c "E" then
              let '(esign, t1) :=
                match t with
                | String g t' =>
                    if Ascii.eqb g "-" || Ascii.eqb g "+"
                    then (String g EmptyString, t') else (EmptyString, t)
                | EmptyString => (EmptyString, t)
                end in
              match span_digits t1 with
              | (EmptyString, _) => (EmptyString, s3)
              | (d, rest) => (String c (esign +:+ d), rest)
              end
            else (EmptyString, s3)
        | EmptyString => (EmptyString, s3)
        end in
      Some (sign +:+ digits +:+ frac +:+ exp, s4)
  end.

Definition expect_value {A : Type} : result A := Raise (JSONDecodeError "Expecting value").

(** [scan_once], [JSONArray] after its first value position is reached, and
    [JSONObject] after the quote that opens a key. *)
Fixpoint scan_once (fuel : nat) (s : string) : result (value * string) :=
  match fuel with
  | O => expect_value
  | S fuel' =>
      match s with
      | EmptyString => expect_value
      | String c t =>
          if Ascii.eqb c quote then
            '(str, rest) ← scanstring t; Ok (Text str, rest)
          else if Ascii.eqb c "{" then
            match skip_ws t with
            | String d t' =>
                if Ascii.eqb d "}" then Ok (Obj [], t')
                else if Ascii.eqb d quote then
                  '(members, rest) ← object_members fuel' t'; Ok (Obj members, rest)
                else Raise (JSONDecodeError
                              "Expecting property name enclosed in double quotes")
            | EmptyString =>
                Raise (JSONDecodeError "Expecting property name enclosed in double quotes")
            end
          else if Ascii.eqb c "[" then
            match skip_ws t with
            | String d t' =>
                if Ascii.eqb d "]" then Ok (Arr [], t')
                else '(items, rest) ← array_items fuel' (String d t'); Ok (Arr items, rest)
            | EmptyString => expect_value
            end
          else if Str.startswith s "null" then Ok (Null, Str.drop 4 s)
          else if Str.startswith s "true" then Ok (Boolean true, Str.drop 4 s)
          else if Str.startswith s "false" then Ok (Boolean false, Str.drop 5 s)
          else
            match match_number s with
            | Some (literal, rest) => Ok (Num literal, rest)
            | None =>
                if Str.startswith s "NaN" then Ok (Num "NaN", Str.drop 3 s)
                else if Str.startswith s "Infinity" then Ok (Num "Infinity", Str.drop 8 s)
                else if Str.startswith s "-Infinity" then Ok (Num "-Infinity", Str.drop 9 s)
                else expect_value
            end
      end
  end
with array_items (fuel : nat) (s : string) : result (list value * string) :=
  match fuel with
  | O => expect_value
  | S fuel' =>
      '(v, rest) ← scan_once fuel' s;
      match skip_ws rest with
      | String d t =>
          if Ascii.eqb d "]" then Ok ([v], t)
          else if Ascii.eqb d "," then
            '(vs, rest') ← array_items fuel' (skip_ws t); Ok (v :: vs, rest')
          else Raise (JSONDecodeError "Expecting ',' delimiter")
      | EmptyString => Raise (JSONDecodeError "Expecting ',' delimiter")
      end
  end
with object_members (fuel : nat) (s : string) : result (list (string * value) * string) :=
  match fuel with
  | O => expect_value
  | S fuel' =>
      '(key, rest) ← scanstring s;
      match skip_ws rest with
      | String d t =>
          if Ascii.eqb d ":" then
            '(v, rest1) ← scan_once fuel' (skip_ws t);
            match skip_ws rest1 with
            | String d' t' =>
                if Ascii.eqb d' "}" then Ok ([(key, v)], t')
                else if Ascii.eqb d' "," then
                  match skip_ws t' with
                  | String q t'' =>
                      if Ascii.eqb q quote then
                        '(ms, rest2) ← object_members fuel' t''; Ok ((key, v) :: ms, rest2)
                      else Raise (JSONDecodeError
                                    "Expecting property name enclosed in double quotes")
                  | EmptyString =>
                      Raise (JSONDecodeError
                               "Expecting property name enclosed in double quotes")
                  end
                else Raise (JSONDecodeError "Expecting ',' delimiter")
            | EmptyString => Raise (JSONDecodeError "Expecting ',' delimiter")
            end
          else Raise (JSONDecodeError "Expecting ':' delimiter")
      | EmptyString => Raise (JSONDecodeError "Expecting ':' delimiter")
      end
  end.

(** [JSONDecoder.decode]: one value between optional white space. *)
Definition loads (text : string) : result value :=
  '(v, rest) ← scan_once (2 * String.length text + 2) (skip_ws text);
  match skip_ws rest with
  | EmptyString => Ok v
  | String _ _ => Raise (JSONDecodeError "Extra data")
  end.

(** [d[key]] on a decoded object: the last member of that name. *)
Fixpoint getitem (members : list (string * value)) (key : string) : option value :=
  match members with
  | [] => None
  | (k, v) :: rest =>
      match getitem rest key with
      | Some v' => Some v'
      | None => if String.eqb k key then Some v else None
      end
  end.

End Json.

(** ** [CacheManager] *)

Module CacheManager.

Definition _infer_placeholder_type (name : string) : string :=
  let name_lower := Str.lower name in
  if Str.contains "file" name_lower || Str.contains "path" name_lower then "file"
  else if Str.contains "dir" name_lower || Str.contains "directory" name_lower
  then "directory"
  else if Str.contains "port" name_lower then "port"
  else if Str.contains "num" name_lower || Str.contains "number" name_lower
          || Str.contains "count" name_lower
  then "number"
  else if Str.contains "url" name_lower || Str.contains "link" name_lower then "url"
  else if Str.contains "ip" name_lower || Str.contains "address" name_lower then "ip"
  else if Str.contains "user" name_lower || Str.contains "username" name_lower
  then "username"
  else if Str.contains "pass" name_lower || Str.contains "password" name_lower
  then "password"
  else if Str.contains "email" name_lower then "email"
  else "text".

(** [match not in seen] *)
Definition seen_contains (seen : list string) (m : string) : bool :=
  existsb (String.eqb m) seen.

(** [Placeholder(name=match, type=self._infer_placeholder_type(match))] *)
Definition new_placeholder (m : string) : result Placeholder.t :=
  Placeholder.__init__ [] [("name", m); ("type", _infer_placeholder_type m)].

(** The body of the loop over the matches: the set [seen] and the list
    [placeholders] are the state. *)
Definition extract_step (st : list string * list Placeholder.t) (m : string)
  : result (list string * list Placeholder.t) :=
  let '(seen, placeholders) := st in
  if seen_contains seen m then Ok (seen, placeholders)
  else
    placeholder ← new_placeholder m;
    Ok (m :: seen, placeholders ++ [placeholder]).

Definition _extract_placeholders (command : string) : result (list Placeholder.t) :=
  let matches := Re.findall_placeholders command in
  st ← for_each extract_step matches ([], []);
  Ok (snd st).

(** The state of the loop of [_parse_page]. *)
Record parser : Type :=
  Parser { page_description : string;
           page_examples : list Example.t;
           current_example : option Example.t;
           in_example : bool }.

Definition append_current (st : parser) : list Example.t :=
  match current_example st with
  | Some ex => page_examples st ++ [ex]
  | None => page_examples st
  end.

Definition parse_line (st : parser) (line0 : string) : result parser :=
  let line := Str.strip line0 in
  if Str.startswith line "# " then Ok st
  else if Str.startswith line "> " then
    Ok (Parser (Str.drop 2 line) (page_examples st) (current_example st) (in_example st))
  else if Str.startswith line "- " then
    let examples := append_current st in
    ex ← Example.__init__ [] [("description", Example.Text (Str.drop 2 line))];
    Ok (Parser (page_description st) examples (Some ex) true)
  else if Str.startswith line "`" && Str.endswith_char line "`" && in_example st then
    let command := Str.drop_last (Str.drop 1 line) in
    match current_example st with
    | Some ex =>
        placeholders ← _extract_placeholders command;
        Ok (Parser (page_description st) (page_examples st)
              (Some (Example.Build (Example.description ex) command placeholders))
              (in_example st))
    | None => Raise (AttributeError "'NoneType' object has no attribute 'command'")
    end
  else if negb (Str.truthy line) then
    Ok (Parser (page_description st) (page_examples st) (current_example st) false)
  else Ok st.

Definition _parse_page (content : string) (entry : IndexEntry.t) : result Page.t :=
  let lines := Str.split_lines content in
  st ← for_each parse_line lines
         (Parser (IndexEntry.description entry) [] None false);
  Ok (Page.Build (IndexEntry.name entry) (page_description st)
        (IndexEntry.platform entry) (append_current st) content).

Definition _load_page (cache : Cache.t) (entry : IndexEntry.t) : result Page.t :=
  match Cache.page_files cache !! (IndexEntry.platform entry, IndexEntry.name entry) with
  | Some stored => _parse_page (Io.read_text stored) entry
  | None => Raise FileNotFoundError
  end.

Definition _calculate_relevance_score (page : Page.t) (query : string) : Z :=
  let query_lower := Str.lower query in
  let name_lower := Str.lower (Page.name page) in
  let description_lower := Str.lower (Page.description page) in
  let score := 0 in
  let score :=
    if String.eqb name_lower query_lower then score + 100
    else if Str.startswith name_lower query_lower then score + 50
    else if Str.contains query_lower name_lower then score + 25
    else score in
  let score :=
    if Str.contains query_lower description_lower then score + 10 else score in
  fold_left
    (fun score example =>
       if Str.contains query_lower (Str.lower (Example.description example))
       then score + 15 else score)
    (Page.examples page) score.

(** [list.sort(key=...)]: ascending on the keys and stable. *)
Section Sort.
Context {A K : Type} (le : K -> K -> bool) (key : A -> K).

Fixpoint insert_sorted (x : A) (l : list A) : list A :=
  match l with
  | [] => [x]
  | y :: l' => if le (key x) (key y) then x :: l else y :: insert_sorted x l'
  end.

Fixpoint sort_by_key (l : list A) : list A :=
  match l with
  | [] => []
  | x :: l' => insert_sorted x (sort_by_key l')
  end.
End Sort.

Definition entry_json (entry : IndexEntry.t) : Json.value :=
  Json.Obj [("name", Json.Text (IndexEntry.name entry));
            ("description", Json.Text (IndexEntry.description entry));
            ("platform", Json.Text (IndexEntry.platform entry))].

Definition _save_index (cache : Cache.t) (index : list IndexEntry.t) : Cache.t :=
  let data := Json.Arr (map entry_json index) in
  Cache.Build (Some (Json.dumps data)) (Cache.page_files cache).

(** [for item in data]: a list gives its items, an object its keys, a
    string its characters; nothing else can be iterated. *)
Definition iterate (data : Json.value) : result (list Json.value) :=
  match data with
  | Json.Arr items => Ok items
  | Json.Obj members => Ok (map (fun kv => Json.Text (fst kv)) members)
  | Json.Text s =>
      Ok (map (fun c => Json.Text (String c EmptyString)) (list_ascii_of_string s))
  | _ => Raise (TypeError "object is not iterable")
  end.

(** [item[key]] *)
Definition subscript (item : Json.value) (key : string) : result Json.value :=
  match item with
  | Json.Obj members =>
      match Json.getitem members key with
      | Some v => Ok v
      | None => Raise (KeyError key)
      end
  | Json.Text _ => Raise (TypeError "string indices must be integers")
  | Json.Arr _ => Raise (TypeError "list indices must be integers or slices")
  | _ => Raise (TypeError "object is not subscriptable")
  end.

(** The three fields of an [IndexEntry] are strings; a decoded value of
    another kind is outside the type and is refused here. *)
Definition as_str (v : Json.value) : result string :=
  match v with
  | Json.Text s => Ok s
  | _ => Raise (TypeError "index field outside the annotated type str")
  end.

Definition load_entry (item : Json.value) : result IndexEntry.t :=
  n ← subscript item "name";
  d ← subscript item "description";
  p ← subscript item "platform";
  n ← as_str n; d ← as_str d; p ← as_str p;
  Ok (IndexEntry.Build n d p).

Definition _load_index (cache : Cache.t) : result (list IndexEntry.t) :=
  match Cache.index_json cache with
  | None => Raise FileNotFoundError
  | Some stored =>
      data ← Json.loads (Io.read_text stored);
      items ← iterate data;
      for_each (fun acc item => entry ← load_entry item; Ok (acc ++ [entry])) items []
  end.

(** The sort key of [find_page]: a pair, compared first on its Boolean
    ([False] before [True]) and then on its string. *)
Definition match_key (command : string) (x : IndexEntry.t) : bool * string :=
  (negb (Str.startswith (Str.lower (IndexEntry.name x)) (Str.lower command)),
   Str.lower (IndexEntry.name x)).

Definition key_le (a b : bool * string) : bool :=
  if Bool.eqb (fst a) (fst b) then Str.leb (snd a) (snd b) else negb (fst a).

Definition find_page (cache : Cache.t) (command : string) : result Page.t :=
  index ← _load_index cache;
  match List.find (fun entry => String.eqb (IndexEntry.name entry) command) index with
  | Some entry => _load_page cache entry
  | None =>
      let matches :=
        List.filter
          (fun entry => Str.contains (Str.lower command) (Str.lower (IndexEntry.name entry)))
          index in
      match matches with
      | [] => Raise (ValueError ("Command not found: " +:+ command))
      | _ :: _ =>
          match sort_by_key key_le (match_key command) matches with
          | best :: _ => _load_page cache best
          | [] => Raise (TypeError "list index out of range")
          end
      end
  end.

(** The body of the loop of [search_pages]. *)
Definition search_step (cache : Cache.t) (query_lower : string) (platforms : list string)
  (results : list Page.t) (entry : IndexEntry.t) : list Page.t :=
  if match platforms with [] => false | _ :: _ => true end
     && negb (existsb (String.eqb (IndexEntry.platform entry)) platforms)
  then results
  else if Str.contains query_lower (Str.lower (IndexEntry.name entry))
          || Str.contains query_lower (Str.lower (IndexEntry.description entry))
  then
    match _load_page cache entry with
    | Ok page => results ++ [page]
    | Raise _ => results
    end
  else results.

Definition search_pages (cache : Cache.t) (query : string) (platforms : list string)
  : result (list Page.t) :=
  index ← _load_index cache;
  let results := fold_left (search_step cache (Str.lower query) platforms) index [] in
  Ok (sort_by_key Z.leb (fun x => _calculate_relevance_score x query) results).

End CacheManager.


(** ** The specification's own notions, for comparison with the code *)

Module Spec.

(** The rule table of [infer_type], in its order of priority: the patterns of
a rule and the kind it gives. *)
Definition rule_table : list (list string * string) :=
  [ (["file"; "path"], "file");
    (["dir"; "directory"], "directory");
    (["port"], "port");
    (["num"; "number"; "count"], "number");
    (["url"; "link"], "url");
    (["ip"; "address"], "ip");
    (["user"; "username"], "username");
    (["pass"; "password"], "password");
    (["email"], "email") ].

Definition rule_matches (name_lower : string) (rule : list string * string) : bool :=
  existsb (fun pattern => Str.contains pattern name_lower) (fst rule).

Fixpoint first_rule (rules : list (list string * string)) (name_lower : string) : string :=
  match rules with
  | [] => "text"
  | rule :: rest =>
      if rule_matches name_lower rule then snd rule else first_rule rest name_lower
  end.

Definition infer_type (name : string) : string := first_rule rule_table (Str.lower name).

(** The names of a list without their repetitions, each at the place
where it occurs first. *)
Fixpoint first_occurrences (l : list string) : list string :=
  match l with
  | [] => []
  | x :: t => x :: List.filter (fun y => negb (String.eqb y x)) (first_occurrences t)
  end.

(** One call per element, from left to right, up to the first that raises. *)
Fixpoint map_result {A B : Type} (f : A -> result B) (l : list A) : result (list B) :=
  match l with
  | [] => Ok []
  | x :: t => y ← f x; ys ← map_result f t; Ok (y :: ys)
  end.

(** Whether the character [c] occurs in [s]. *)
Fixpoint has_char (c : ascii) (s : string) : bool :=
  match s with
  | EmptyString => false
  | String d t => Ascii.eqb d c || has_char c t
  end.

(** The names for which the loop of [_extract_placeholders] builds a
placeholder: those not seen before. *)
Fixpoint new_names (seen : list string) (ms : list string) : list string :=
  match ms with
  | [] => []
  | m :: t =>
      if CacheManager.seen_contains seen m then new_names seen t
      else m :: new_names (m :: seen) t
  end.

(** The order of [find_page] among the partial matches: a name that starts
with the query comes before one that only contains it; between two names of
the same sort, the smaller one in the lexicographic order comes first.  As
the match itself, both are read without regard to case. *)
Definition name_contains (command : string) (e : IndexEntry.t) : bool :=
  Str.contains (Str.lower command) (Str.lower (IndexEntry.name e)).

Definition name_starts (command : string) (e : IndexEntry.t) : bool :=
  Str.startswith (Str.lower (IndexEntry.name e)) (Str.lower command).

Definition preferred (command : string) (a b : IndexEntry.t) : Prop :=
  (name_starts command a = true /\ name_starts command b = false)
  \/ (name_starts command a = name_starts command b
      /\ Str.leb (Str.lower (IndexEntry.name a)) (Str.lower (IndexEntry.name b)) = true).

End Spec.

(** ** Inputs of the examples *)

Definition LF : string := String "010"%char EmptyString.

Definition tar_entry : IndexEntry.t := IndexEntry.Build "tar" "Archive utility" "linux".

(** The page text of the end-to-end example of the specification. *)
Definition tar_page_text : string :=
  "# tar" +:+ LF +:+ LF +:+ "> Archive utility." +:+ LF +:+ LF
  +:+ "- Extract archive:" +:+ LF +:+ "  `tar -xf {{file}}`" +:+ LF.

(** An index of two pages without examples, and a cache that holds them. *)
Definition two_entries : list IndexEntry.t :=
  [ IndexEntry.Build "tar" "Archive utility" "linux";
    IndexEntry.Build "bsdtar" "Archive utility" "linux" ].

Definition two_pages : Cache.t :=
  CacheManager._save_index
    (Cache.Build None
       (<[("linux", "tar") := "# tar" +:+ LF +:+ "> Archive utility" +:+ LF]>
          (<[("linux", "bsdtar") := "# bsdtar" +:+ LF +:+ "> Archive utility" +:+ LF]> ∅)))
    two_entries.

(** A cache that holds the tar page of the specification. *)
Definition tar_page_cache : Cache.t :=
  CacheManager._save_index
    (Cache.Build None (<[("linux", "tar") := tar_page_text]> ∅)) [tar_entry].

Definition file_placeholder (dflt : string) : Placeholder.t :=
  Placeholder.Build "file" "file" "" dflt.

(** ** The text that [json.dump] writes for an index

The same text as [Json.dumps] gives (lemma [dumps_index]), written with
what follows each part as an argument, the form in which the decoder
reads it. *)

Module JsonText.

(** A member: the key, a colon and a space, the value. *)
Definition member (key v k : string) : string :=
  Json.escape_all key
    (String Json.quote (String ":" (String " " (String Json.quote
       (Json.escape_all v (String Json.quote k)))))).

(** Between two members: a comma, a line break, four spaces, the quote that
opens the next key. *)
Definition next_member (k : string) : string :=
  String "," (String Json.newline
    (String " " (String " " (String " " (String " " (String Json.quote k)))))).

Definition entry (e : IndexEntry.t) (k : string) : string :=
  String "{" (String Json.newline
    (String " " (String " " (String " " (String " " (String Json.quote
      (member "name" (IndexEntry.name e) (next_member
      (member "description" (IndexEntry.description e) (next_member
      (member "platform" (IndexEntry.platform e)
         (String Json.newline (String " " (String " " (String "}" k))))))))))))))).

Fixpoint items (e : IndexEntry.t) (l : list IndexEntry.t) (k : string) : string :=
  match l with
  | [] => entry e (String Json.newline (String "]" k))
  | e' :: l' =>
      entry e (String "," (String Json.newline (String " " (String " " (items e' l' k)))))
  end.

Definition index (entries : list IndexEntry.t) : string :=
  match entries with
  | [] => "[]"
  | e :: l => String "[" (String Json.newline (String " " (String " " (items e l ""))))
  end.

End JsonText.

(** ** [Page.find_best_example] *)

Module PageMethods.

Definition description_matches (query_lower : string) (example : Example.t) : bool :=
  Str.contains query_lower (Str.lower (Example.description example)).

(** The two loops of the method are the same search; the first example is
the fallback. *)
Definition find_best_example (self : Page.t) (query : string) : option Example.t :=
  match Page.examples self with
  | [] => None
  | first :: _ =>
      let query_lower := Str.lower query in
      match List.find (description_matches query_lower) (Page.examples self) with
      | Some example => Some example
      | None =>
          match List.find (description_matches query_lower) (Page.examples self) with
          | Some example => Some example
          | None => Some first
          end
      end
  end.

End PageMethods.

(** ** The remote catalogue, the disk, and the methods of [CacheManager]
that fetch and store

What the requests of the session give: for the index, the decoded JSON
document or the exception of the request; for a page, the text of the
response or the exception.  Text printed is not part of the state. *)

Module Remote.
Record t : Type :=
  Build { index : result Json.value;
          page : string -> string -> result string }.
End Remote.

(** What storing a page file does (lines 222 to 229), for a platform, a name
and a text: the directory is made and the text written; or [mkdir] or
[open] raises, and the file is as it was; or [write] raises, and the file,
which [open] has emptied, holds what was written until then. *)

Module Disk.
Inductive outcome : Type :=
| Stored
| Refused
| Cut (written : string).

Definition t : Type := string -> string -> string -> outcome.
End Disk.

Module CacheSync.

Definition is_initialized (cache : Cache.t) : bool :=
  match Cache.index_json cache with
  | Some _ => true
  | None => false
  end.

Definition _download_index (remote : Remote.t) : result (list IndexEntry.t) :=
  data ← Remote.index remote;
  items ← CacheManager.iterate data;
  for_each (fun acc item => entry ← CacheManager.load_entry item; Ok (acc ++ [entry])) items [].

Definition write_page (cache : Cache.t) (entry : IndexEntry.t) (text : string) : Cache.t :=
  Cache.Build (Cache.index_json cache)
    (<[(IndexEntry.platform entry, IndexEntry.name entry) := text]> (Cache.page_files cache)).

(** The cache directory after the call, and how the call ends. *)
Definition _download_page (remote : Remote.t) (disk : Disk.t) (cache : Cache.t)
  (entry : IndexEntry.t) : Cache.t * result unit :=
  match Remote.page remote (IndexEntry.platform entry) (IndexEntry.name entry) with
  | Raise e => (cache, Raise e)
  | Ok text =>
      match disk (IndexEntry.platform entry) (IndexEntry.name entry) text with
      | Disk.Stored => (write_page cache entry text, Ok tt)
      | Disk.Refused => (cache, Raise OSError)
      | Disk.Cut written => (write_page cache entry written, Raise OSError)
      end
  end.

(** A page that cannot be fetched or stored is passed over. *)
Definition _download_pages (remote : Remote.t) (disk : Disk.t) (cache : Cache.t)
  (index : list IndexEntry.t) : Cache.t :=
  fold_left (fun cache entry => fst (_download_page remote disk cache entry)) index cache.

Definition initialize (remote : Remote.t) (disk : Disk.t) (cache : Cache.t) : result Cache.t :=
  if is_initialized cache then Ok cache
  else
    index ← _download_index remote;
    let cache := _download_pages remote disk cache index in
    Ok (CacheManager._save_index cache index).

Definition update (remote : Remote.t) (disk : Disk.t) (cache : Cache.t) : result Cache.t :=
  initialize remote disk cache.

End CacheSync.

(** ** [App]

The application calls methods of the objects it holds: [find_page] of its
cache and [render] of the example it has found.  Both are parameters here,
as the tests of [App] replace the first; the theorems hold for whatever the
two do, and are applied to the methods of [cache.py].  The world of
[execute_command]: the lines that [input] will read, the exit status that
the shell gives for a command, the commands run so far, and the audit log
(its text, and whether it can be written). *)

Module App.

Definition destructive_verbs : list string :=
  [ "rm"; "rmdir"; "del"; "erase";
    "dd"; "mkfs"; "fdisk"; "parted";
    "iptables"; "ufw"; "firewall-cmd";
    "chmod"; "chown"; "chattr";
    "kill"; "killall"; "pkill";
    "shutdown"; "reboot"; "halt";
    "mv"; "move"; "rename";
    "cp"; "copy"; "xcopy";
    "tar"; "zip"; "unzip";
    "git"; "svn"; "hg" ].

Definition _is_destructive_command (command : string) : bool :=
  let command_lower := Str.lower command in
  existsb
    (fun verb => Str.startswith command_lower (verb +:+ " ") || String.eqb command_lower verb)
    destructive_verbs.

Record World : Type :=
  MkWorld { stdin : list string;
            shell : string -> Z;
            executed : list string;
            log_writable : bool;
            exec_log : string }.

(** How a call ends: it returns, it raises, the process exits
([sys.exit]), or [input] finds the input closed ([EOFError]). *)
Inductive outcome : Type :=
| Returned
| Raised (e : exn)
| Exited (code : Z)
| EndOfInput.

(** A failure to write the log is not reported. *)
Definition _log_execution (command : string) (w : World) : World :=
  if log_writable w
  then MkWorld (stdin w) (shell w) (executed w) (log_writable w)
         (exec_log w +:+ command +:+ String "010"%char EmptyString)
  else w.

(** [subprocess.run(rendered, shell=True, check=True)] and what follows it.
A command with a null character is refused before anything runs. *)
Definition run_and_log (rendered : string) (w : World) : outcome * World :=
  if Str.contains (String "000"%char EmptyString) rendered then (Raised (ValueError "embedded null byte"), w)
  else
    let w1 := MkWorld (stdin w) (shell w) (executed w ++ [rendered]) (log_writable w)
                (exec_log w) in
    let code := shell w rendered in
    if code =? 0 then (Returned, _log_execution rendered w1) else (Exited code, w1).

Section WithCache.
Variable find_page : string -> result Page.t.
Variable render : Example.t -> gmap string string -> result string.

Definition render_command (command : string) (variables : gmap string string)
  : result string :=
  page ← find_page command;
  match PageMethods.find_best_example page command with
  | None => Raise (ValueError ("No suitable example found for command: " +:+ command))
  | Some example => render example variables
  end.

Definition execute_command (confirm_destructive : bool) (command : string)
  (variables : gmap string string) (w : World) : outcome * World :=
  match find_page command with
  | Raise e => (Raised e, w)
  | Ok page =>
      match PageMethods.find_best_example page command with
      | None =>
          (Raised (ValueError ("No suitable example found for command: " +:+ command)), w)
      | Some example =>
          match render example variables with
          | Raise e => (Raised e, w)
          | Ok rendered =>
              if _is_destructive_command rendered && confirm_destructive then
                match stdin w with
                | [] => (EndOfInput, w)
                | response :: rest =>
                    let w' := MkWorld rest (shell w) (executed w) (log_writable w)
                                (exec_log w) in
                    if negb (existsb (String.eqb (Str.lower response)) ["y"; "yes"])
                    then (Returned, w')
                    else run_and_log rendered w'
                end
              else run_and_log rendered w
          end
      end
  end.
End WithCache.

End App.

(** ** The variables of the command line: [--vars key=value,key2=value2] *)

Module Cli.

(** [s.split(sep)] for a one-character separator: the first part and the
remaining ones. *)
Fixpoint split_aux (sep : ascii) (s : string) : string * list string :=
  match s with
  | EmptyString => (EmptyString, [])
  | String c t =>
      let '(first, others) := split_aux sep t in
      if Ascii.eqb c sep then (EmptyString, first :: others)
      else (String c first, others)
  end.

Definition split (sep : ascii) (s : string) : list string :=
  let '(first, others) := split_aux sep s in first :: others.

(** [s.split(sep, 1)] for a string that contains the separator: what is
before its first occurrence and what is after it. *)
Fixpoint split_once (sep : ascii) (s : string) : string * string :=
  match s with
  | EmptyString => (EmptyString, EmptyString)
  | String c t =>
      if Ascii.eqb c sep then (EmptyString, t)
      else let '(before, after) := split_once sep t in (String c before, after)
  end.

(** The body of the loop over the pairs. *)
Definition add_pair (variables : gmap string string) (pair : string) : gmap string string :=
  if Str.contains "=" pair then
    let '(key, value) := split_once "=" pair in
    <[Str.strip key := Str.strip value]> variables
  else variables.

Definition parse_vars (vars : option string) : gmap string string :=
  match vars with
  | None => ∅
  | Some s => if Str.truthy s then fold_left add_pair (split "," s) ∅ else ∅
  end.

End Cli.

(** ** Notions used in the statements on the parser, the search and the
command line *)

(** What a line does to the description of the page. *)
Definition description_after (description line : string) : string :=
  let stripped := Str.strip line in
  if Str.startswith stripped "# " then description
  else if Str.startswith stripped "> " then Str.drop 2 stripped
  else description.

(** An entry that [search_pages] keeps: its platform passes the filter and
the query occurs in its name or in its description. *)
Definition selected (query : string) (platforms : list string) (entry : IndexEntry.t) : bool :=
  (match platforms with [] => true | _ :: _ => false end
   || existsb (String.eqb (IndexEntry.platform entry)) platforms)
  && (Str.contains (Str.lower query) (Str.lower (IndexEntry.name entry))
      || Str.contains (Str.lower query) (Str.lower (IndexEntry.description entry))).

(** A binding as the loop over [--vars] stores it: no separator is left
in it and it is stripped. *)
Definition clean_binding (key value : string) : Prop :=
  Str.contains "=" key = false
  /\ Str.contains "," key = false
  /\ Str.contains "," value = false
  /\ Str.strip key = key
  /\ Str.strip value = value.


(** ** More example inputs *)

(** A page text without list items, and the page it is parsed into. *)
Definition described_page_text : string := "# tar" +:+ LF +:+ "> Archiving tool" +:+ LF.

Definition described_page : Page.t :=
  Page.Build "tar" "Archiving tool" "linux" [] described_page_text.

(** The pages of the cache [two_pages]. *)
Definition tar_page : Page.t :=
  Page.Build "tar" "Archive utility" "linux" []
    ("# tar" +:+ LF +:+ "> Archive utility" +:+ LF).

Definition bsdtar_page : Page.t :=
  Page.Build "bsdtar" "Archive utility" "linux" []
    ("# bsdtar" +:+ LF +:+ "> Archive utility" +:+ LF).

(** A catalogue of one page, whose text has the line ends [CR LF]; a disk
that stores every page; an empty cache directory, and the directory after
[initialize]. *)
Definition CRLF : string := String Io.CR (String Io.LF EmptyString).

Definition served_page_text : string := "# tar" +:+ CRLF +:+ "> Archiving tool" +:+ CRLF.

Definition tar_remote : Remote.t :=
  Remote.Build (Ok (Json.Arr [CacheManager.entry_json tar_entry]))
    (fun _ _ => Ok served_page_text).

Definition storing_disk : Disk.t := fun _ _ _ => Disk.Stored.

Definition empty_cache : Cache.t := Cache.Build None ∅.

Definition tar_cache : Cache.t :=
  CacheManager._save_index
    (Cache.Build None (<[("linux", "tar") := served_page_text]> ∅)) [tar_entry].

Definition extract_example : Example.t :=
  Example.Build "Extract archive" "tar -xf {{file}}" [file_placeholder ""].

Definition list_example : Example.t :=
  Example.Build "List contents" "tar -tf {{file}}" [file_placeholder ""].

(** A [find_page] that gives a page with an example, as the tests of
[App] patch it in; a [render] that returns a command; and a world in which
one line is typed and every command succeeds. *)
Definition rm_page : Page.t :=
  Page.Build "rm" "Remove files" "linux"
    [Example.Build "Remove file" "rm {{file}}" [file_placeholder ""]] "".

Definition rm_cache (command : string) : result Page.t := Ok rm_page.

Definition rm_render (example : Example.t) (variables : gmap string string) : result string :=
  Ok ("rm " +:+ default "file" (variables !! "file")).

Definition world_answering (answer : string) : App.World :=
  App.MkWorld [answer] (fun _ => 0) [] true "".

(** ** Facts about strings *)

Lemma ascii_eqb_refl (c : ascii) : Ascii.eqb c c = true.
Proof. apply Ascii.eqb_refl. Qed.

Lemma startswith_refl (s : string) : Str.startswith s s = true.
Proof. induction s as [|c s IH]; simpl; [reflexivity|]. now rewrite ascii_eqb_refl. Qed.

Lemma startswith_app (p s : string) : Str.startswith (p +:+ s) p = true.
Proof. induction p as [|c p IH]; simpl; [reflexivity|]. now rewrite ascii_eqb_refl. Qed.

Lemma startswith_spec (s p : string) :
  Str.startswith s p = true <-> exists r, s = p +:+ r.
Proof.
  revert s; induction p as [|b p IH]; intros s; simpl.
  - split; [intros _; now exists s | reflexivity].
  - destruct s as [|a s]; [split; [discriminate | intros [r Hr]; discriminate]|].
    destruct (Ascii.eqb_spec a b) as [->|Hne].
    + rewrite IH. split; intros [r Hr]; exists r; [now subst | now injection Hr].
    + split; [discriminate | intros [r Hr]; injection Hr; congruence].
Qed.

(** ** [infer_type] *)

Lemma first_rule_first (name_lower : string) (pre post : list (list string * string))
  (rule : list string * string) :
  Forall (fun r => Spec.rule_matches name_lower r = false) pre ->
  Spec.rule_matches name_lower rule = true ->
  Spec.first_rule (pre ++ rule :: post) name_lower = snd rule.
Proof.
  induction 1 as [|r pre Hr _ IH]; intros Hm; simpl.
  - now rewrite Hm.
  - rewrite Hr. now apply IH.
Qed.

Lemma first_rule_none (name_lower : string) (rules : list (list string * string)) :
  Forall (fun r => Spec.rule_matches name_lower r = false) rules ->
  Spec.first_rule rules name_lower = "text".
Proof. induction 1 as [|r rules Hr _ IH]; simpl; [reflexivity|]. now rewrite Hr. Qed.

Lemma infer_refines_table (name : string) :
  CacheManager._infer_placeholder_type name = Spec.infer_type name.
Proof.
  unfold CacheManager._infer_placeholder_type, Spec.infer_type, Spec.rule_table.
  cbn [Spec.first_rule Spec.rule_matches existsb fst snd].
  rewrite !orb_false_r, !orb_assoc.
  reflexivity.
Qed.

(** C8. [infer_type] is the priority-ordered rule table, read on the
lower-cased name: it gives the kind of the first rule one of whose patterns
occurs in the name, and [text] when no rule has one; so it does not depend on
the case of the name; and [file], [username] and [unknown_token] get the
kinds [file], [username] and [text]. *)
Theorem infer_type_rule_table :
  (forall name, CacheManager._infer_placeholder_type name
                = Spec.first_rule Spec.rule_table (Str.lower name))
  /\ (forall name pre rule post,
         Spec.rule_table = pre ++ rule :: post ->
         Forall (fun r => Spec.rule_matches (Str.lower name) r = false) pre ->
         Spec.rule_matches (Str.lower name) rule = true ->
         CacheManager._infer_placeholder_type name = snd rule)
  /\ (forall name,
         Forall (fun r => Spec.rule_matches (Str.lower name) r = false) Spec.rule_table ->
         CacheManager._infer_placeholder_type name = "text")
  /\ (forall a b, Str.lower a = Str.lower b ->
         CacheManager._infer_placeholder_type a = CacheManager._infer_placeholder_type b)
  /\ CacheManager._infer_placeholder_type "file" = "file"
  /\ CacheManager._infer_placeholder_type "username" = "username"
  /\ CacheManager._infer_placeholder_type "unknown_token" = "text".
Proof.
  split; [exact infer_refines_table|].
  split.
  { intros name pre rule post Htab Hpre Hm.
    rewrite infer_refines_table. unfold Spec.infer_type. rewrite Htab.
    now apply first_rule_first. }
  split.
  { intros name Hall. rewrite infer_refines_table. now apply first_rule_none. }
  split.
  { intros a b Hab. rewrite !infer_refines_table. unfold Spec.infer_type. now rewrite Hab. }
  repeat split; reflexivity.
Qed.

Lemma infer_type_rule_table_witness :
  Spec.rule_matches (Str.lower "UserName") (["user"; "username"], "username") = true
  /\ CacheManager._infer_placeholder_type "UserName" = "username".
Proof.
  split; [reflexivity|].
  apply (proj1 (proj2 infer_type_rule_table) "UserName"
           [ (["file"; "path"], "file"); (["dir"; "directory"], "directory");
             (["port"], "port"); (["num"; "number"; "count"], "number");
             (["url"; "link"], "url"); (["ip"; "address"], "ip") ]
           (["user"; "username"], "username")
           [ (["pass"; "password"], "password"); (["email"], "email") ]).
  - reflexivity.
  - repeat constructor.
  - reflexivity.
Defined.

(** ** The page parser *)

Lemma example_without_command (description : string) :
  Example.__init__ [] [("description", Example.Text description)]
  = Raise (TypeError "missing 1 required positional argument: 'command'").
Proof. reflexivity. Qed.

Lemma placeholder_with_type_keyword (name type : string) :
  Placeholder.__init__ [] [("name", name); ("type", type)]
  = Raise (TypeError "got an unexpected keyword argument 'type'").
Proof. reflexivity. Qed.

(** A line that does not start a list item leaves the parser outside of an
example when it was outside of one. *)
Lemma parse_line_outside (st : CacheManager.parser) (line : string) :
  CacheManager.current_example st = None ->
  CacheManager.in_example st = false ->
  Str.startswith (Str.strip line) "- " = false ->
  exists st', CacheManager.parse_line st line = Ok st'
              /\ CacheManager.current_example st' = None
              /\ CacheManager.in_example st' = false
              /\ CacheManager.page_examples st' = CacheManager.page_examples st.
Proof.
  intros Hcur Hin Hmark. unfold CacheManager.parse_line.
  rewrite Hmark, Hin, andb_false_r.
  destruct (Str.startswith (Str.strip line) "# "); [now exists st|].
  destruct (Str.startswith (Str.strip line) "> "); [eexists; simpl; eauto|].
  destruct (negb (Str.truthy (Str.strip line))); [eexists; simpl; eauto | now exists st].
Qed.

Lemma parse_line_marker (st : CacheManager.parser) (line : string) :
  Str.startswith (Str.strip line) "- " = true ->
  CacheManager.parse_line st line
  = Raise (TypeError "missing 1 required positional argument: 'command'").
Proof.
  intros Hmark. unfold CacheManager.parse_line.
  apply startswith_spec in Hmark as [r ->].
  reflexivity.
Qed.

Lemma parse_lines_marker (lines : list string) (st : CacheManager.parser) :
  CacheManager.current_example st = None ->
  CacheManager.in_example st = false ->
  Exists (fun line => Str.startswith (Str.strip line) "- " = true) lines ->
  for_each CacheManager.parse_line lines st
  = Raise (TypeError "missing 1 required positional argument: 'command'").
Proof.
  revert st; induction lines as [|line lines IH]; intros st Hcur Hin Hex.
  - inversion Hex.
  - simpl. destruct (Str.startswith (Str.strip line) "- ") eqn:Hmark.
    + now rewrite parse_line_marker.
    + destruct (parse_line_outside st line Hcur Hin Hmark) as (st' & -> & Hcur' & Hin' & _).
      simpl. apply IH; [assumption..|].
      inversion Hex; subst; [congruence | assumption].
Qed.

Lemma parse_lines_plain (lines : list string) (st : CacheManager.parser) :
  CacheManager.current_example st = None ->
  CacheManager.in_example st = false ->
  Forall (fun line => Str.startswith (Str.strip line) "- " = false) lines ->
  exists st', for_each CacheManager.parse_line lines st = Ok st'
              /\ CacheManager.current_example st' = None
              /\ CacheManager.page_examples st' = CacheManager.page_examples st.
Proof.
  revert st; induction lines as [|line lines IH]; intros st Hcur Hin Hall.
  - exists st. now simpl.
  - inversion Hall as [|? ? Hmark Hrest]; subst. simpl.
    destruct (parse_line_outside st line Hcur Hin Hmark) as (st' & -> & Hcur' & Hin' & Hex').
    simpl. destruct (IH st' Hcur' Hin' Hrest) as (st'' & Hrun & Hcur'' & Hex'').
    exists st''. now rewrite Hrun, Hex'', Hex'.
Qed.

(** C1. Where the claim fails: as soon as one line of the text is a list
item (it starts, once stripped, with the list marker), [_parse_page] does not
return a page: the example of that line is built without its command, and
the constructor of [Example] refuses the call. *)
Theorem parse_page_list_item_raises (content : string) (entry : IndexEntry.t) :
  Exists (fun line => Str.startswith (Str.strip line) "- " = true) (Str.split_lines content) ->
  CacheManager._parse_page content entry
  = Raise (TypeError "missing 1 required positional argument: 'command'").
Proof.
  intros Hex. unfold CacheManager._parse_page.
  now rewrite parse_lines_marker.
Qed.

Lemma parse_page_list_item_raises_witness :
  Exists (fun line => Str.startswith (Str.strip line) "- " = true)
    (Str.split_lines ("- Extract archive:" +:+ LF))
  /\ CacheManager._parse_page ("- Extract archive:" +:+ LF) tar_entry
     = Raise (TypeError "missing 1 required positional argument: 'command'").
Proof.
  split.
  - apply Exists_cons_hd. reflexivity.
  - apply (parse_page_list_item_raises ("- Extract archive:" +:+ LF) tar_entry).
    apply Exists_cons_hd. reflexivity.
Defined.

(** A text without list items is parsed, into a page without examples. *)
Lemma parse_page_without_list_item (content : string) (entry : IndexEntry.t) :
  Forall (fun line => Str.startswith (Str.strip line) "- " = false) (Str.split_lines content) ->
  exists page, CacheManager._parse_page content entry = Ok page
               /\ Page.examples page = []
               /\ Page.name page = IndexEntry.name entry
               /\ Page.platform page = IndexEntry.platform entry.
Proof.
  intros Hall. unfold CacheManager._parse_page.
  destruct (parse_lines_plain (Str.split_lines content)
              (CacheManager.Parser (IndexEntry.description entry) [] None false)
              eq_refl eq_refl Hall) as (st & -> & Hcur & Hexs).
  simpl. eexists; split; [reflexivity|]. simpl.
  unfold CacheManager.append_current. rewrite Hcur, Hexs. auto.
Qed.

(** C2. Where the claim fails: on the page text of the end-to-end example
[_parse_page] raises at the list item, so no page and no example come out;
and [_extract_placeholders] on the command of that example raises as well,
since it builds the placeholder with a keyword the constructor does not have. *)
Theorem parse_tar_page_raises :
  CacheManager._parse_page tar_page_text tar_entry
  = Raise (TypeError "missing 1 required positional argument: 'command'")
  /\ CacheManager._extract_placeholders "tar -xf {{file}}"
     = Raise (TypeError "got an unexpected keyword argument 'type'").
Proof. split; reflexivity. Qed.

(** ** Search *)

(** C3. Where the claim fails: for the query [tar] on an index of the pages
[tar] (score 100) and [bsdtar] (score 25), both of which load,
[search_pages] returns [bsdtar] before [tar]: the scores increase along the
result. *)
Theorem search_pages_ascending_example :
  exists low high,
    CacheManager.search_pages two_pages "tar" [] = Ok [low; high]
    /\ Page.name low = "bsdtar" /\ Page.name high = "tar"
    /\ CacheManager._calculate_relevance_score low "tar" = 25
    /\ CacheManager._calculate_relevance_score high "tar" = 100.
Proof. do 2 eexists. split; [vm_compute; reflexivity|]. repeat split. Qed.

(** ** The index file: [json.dump] then [json.load] *)

Lemma append_nil_l (s : string) : "" +:+ s = s.
Proof. reflexivity. Qed.
Lemma append_cons (c : ascii) (a b : string) : String c a +:+ b = String c (a +:+ b).
Proof. reflexivity. Qed.
Lemma append_assoc (a b c : string) : (a +:+ b) +:+ c = a +:+ (b +:+ c).
Proof. induction a as [|x a IH]; [reflexivity|]. rewrite !append_cons. now rewrite IH. Qed.
Lemma append_nil_r (s : string) : s +:+ "" = s.
Proof. induction s as [|x a IH]; [reflexivity|]. rewrite append_cons. now rewrite IH. Qed.
Lemma length_append (a b : string) :
  String.length (a +:+ b) = (String.length a + String.length b)%nat.
Proof. induction a as [|x a IH]; [reflexivity|]. rewrite append_cons. simpl. now rewrite IH. Qed.

Lemma escape_append (c : ascii) (k1 k2 : string) :
  Json.escape c k1 +:+ k2 = Json.escape c (k1 +:+ k2).
Proof.
  unfold Json.escape.
  repeat match goal with |- context [if ?b then _ else _] => destruct b end; reflexivity.
Qed.

Lemma escape_all_append (s k1 k2 : string) :
  Json.escape_all s k1 +:+ k2 = Json.escape_all s (k1 +:+ k2).
Proof.
  induction s as [|c s IH]; [reflexivity|].
  cbn [Json.escape_all]. now rewrite escape_append, IH.
Qed.

Lemma scanstring_escape (c : ascii) (k : string) :
  Json.scanstring (Json.escape c k)
  = '(str, rest) ← Json.scanstring k; Ok (String c str, rest).
Proof.
  destruct c as [[] [] [] [] [] [] [] []]; reflexivity.
Qed.

Lemma scanstring_escape_all (s k : string) :
  Json.scanstring (Json.escape_all s (String Json.quote k)) = Ok (s, k).
Proof.
  induction s as [|c s IH]; [reflexivity|].
  cbn [Json.escape_all]. rewrite scanstring_escape, IH. reflexivity.
Qed.


Lemma encode_entry (e : IndexEntry.t) (k : string) :
  Json.encode 1 (CacheManager.entry_json e) +:+ k = JsonText.entry e k.
Proof.
  unfold CacheManager.entry_json, JsonText.entry, JsonText.member, JsonText.next_member.
  cbn [Json.encode map fst snd Str.join].
  unfold Json.encode_basestring_ascii, Json.newline_indent.
  cbn [Nat.mul Nat.add Json.spaces].
  repeat (rewrite ?append_assoc, ?append_cons, ?append_nil_l, ?escape_all_append).
  reflexivity.
Qed.

Lemma scan_once_string (f : nat) (t : string) :
  Json.scan_once (S f) (String Json.quote t) = '(str, rest) ← Json.scanstring t; Ok (Json.Text str, rest).
Proof. reflexivity. Qed.

Lemma object_members_unfold (f : nat) (s : string) :
  Json.object_members (S f) s =
    '(key, rest) ← Json.scanstring s;
    match Json.skip_ws rest with
    | String d t =>
        if Ascii.eqb d ":" then
          '(v, rest1) ← Json.scan_once f (Json.skip_ws t);
          match Json.skip_ws rest1 with
          | String d' t' =>
              if Ascii.eqb d' "}" then Ok ([(key, v)], t')
              else if Ascii.eqb d' "," then
                match Json.skip_ws t' with
                | String q t'' =>
                    if Ascii.eqb q Json.quote then
                      '(ms, rest2) ← Json.object_members f t''; Ok ((key, v) :: ms, rest2)
                    else Raise (JSONDecodeError
                                  "Expecting property name enclosed in double quotes")
                | EmptyString =>
                    Raise (JSONDecodeError
                             "Expecting property name enclosed in double quotes")
                end
              else Raise (JSONDecodeError "Expecting ',' delimiter")
          | EmptyString => Raise (JSONDecodeError "Expecting ',' delimiter")
          end
        else Raise (JSONDecodeError "Expecting ':' delimiter")
    | EmptyString => Raise (JSONDecodeError "Expecting ':' delimiter")
    end.
Proof. reflexivity. Qed.

Ltac json_step :=
  cbn [mbind result_bind Json.skip_ws Json.is_ws Ascii.eqb Bool.eqb orb andb
       Json.quote Json.newline].

Lemma member_more (f : nat) (key v k : string) :
  Json.object_members (S (S f)) (JsonText.member key v (JsonText.next_member k))
  = '(ms, rest) ← Json.object_members (S f) k; Ok ((key, Json.Text v) :: ms, rest).
Proof.
  rewrite object_members_unfold. unfold JsonText.member, JsonText.next_member.
  rewrite scanstring_escape_all. json_step.
  rewrite scan_once_string, scanstring_escape_all. json_step.
  reflexivity.
Qed.

Lemma member_last (f : nat) (key v k : string) :
  Json.object_members (S (S f))
    (JsonText.member key v (String Json.newline (String " " (String " " (String "}" k)))))
  = Ok ([(key, Json.Text v)], k).
Proof.
  rewrite object_members_unfold. unfold JsonText.member.
  rewrite scanstring_escape_all. json_step.
  rewrite scan_once_string, scanstring_escape_all. json_step.
  reflexivity.
Qed.

Lemma scan_once_object (f : nat) (t : string) :
  Json.scan_once (S f)
    (String "{" (String Json.newline (String " " (String " " (String " " (String " " (String Json.quote t)))))))
  = '(members, rest) ← Json.object_members f t; Ok (Json.Obj members, rest).
Proof. reflexivity. Qed.

Lemma scan_entry (n : nat) (e : IndexEntry.t) (k : string) :
  Json.scan_once (5 + n) (JsonText.entry e k) = Ok (CacheManager.entry_json e, k).
Proof.
  unfold JsonText.entry. cbn [Nat.add].
  rewrite scan_once_object, member_more, member_more, member_last.
  reflexivity.
Qed.

Lemma array_items_unfold (f : nat) (s : string) :
  Json.array_items (S f) s =
    '(v, rest) ← Json.scan_once f s;
    match Json.skip_ws rest with
    | String d t =>
        if Ascii.eqb d "]" then Ok ([v], t)
        else if Ascii.eqb d "," then
          '(vs, rest') ← Json.array_items f (Json.skip_ws t); Ok (v :: vs, rest')
        else Raise (JSONDecodeError "Expecting ',' delimiter")
    | EmptyString => Raise (JSONDecodeError "Expecting ',' delimiter")
    end.
Proof. reflexivity. Qed.

Lemma skip_ws_items (e : IndexEntry.t) (l : list IndexEntry.t) (k : string) :
  Json.skip_ws (JsonText.items e l k) = JsonText.items e l k.
Proof. destruct l; reflexivity. Qed.

Lemma scan_items (l : list IndexEntry.t) (e : IndexEntry.t) (m : nat) (k : string) :
  (length l <= m)%nat ->
  Json.array_items (6 + m) (JsonText.items e l k)
  = Ok (map CacheManager.entry_json (e :: l), k).
Proof.
  revert e m; induction l as [|e' l IH]; intros e m Hm.
  - cbn [JsonText.items]. change (6 + m)%nat with (S (5 + m)).
    rewrite array_items_unfold, scan_entry. json_step. reflexivity.
  - destruct m as [|m]; [simpl in Hm; lia|].
    cbn [JsonText.items]. change (6 + S m)%nat with (S (5 + S m)).
    rewrite array_items_unfold, scan_entry. json_step.
    rewrite skip_ws_items.
    change (5 + S m)%nat with (6 + m)%nat.
    rewrite IH by (simpl in Hm; lia).
    reflexivity.
Qed.

Lemma join_entries (e : IndexEntry.t) (l : list IndexEntry.t) (k : string) :
  Str.join (String "," (String Json.newline "  ")) (map (Json.encode 1) (map CacheManager.entry_json (e :: l)))
  +:+ String Json.newline (String "]" k)
  = JsonText.items e l k.
Proof.
  revert e; induction l as [|e' l IH]; intros e.
  - cbn [map Str.join JsonText.items]. apply encode_entry.
  - cbn [map Str.join JsonText.items] in *.
    rewrite !append_assoc, encode_entry. f_equal.
    rewrite !append_cons, append_nil_l. do 4 f_equal. apply IH.
Qed.

Lemma dumps_index (index : list IndexEntry.t) :
  Json.dumps (Json.Arr (map CacheManager.entry_json index)) = JsonText.index index.
Proof.
  destruct index as [|e l]; [reflexivity|].
  unfold Json.dumps, JsonText.index.
  change (map CacheManager.entry_json (e :: l))
    with (CacheManager.entry_json e :: map CacheManager.entry_json l).
  cbn [Json.encode]. unfold Json.newline_indent. cbn [Nat.mul Nat.add Json.spaces].
  rewrite !append_cons, !append_nil_l. do 4 f_equal.
  change (CacheManager.entry_json e :: map CacheManager.entry_json l)
    with (map CacheManager.entry_json (e :: l)).
  apply (join_entries e l "").
Qed.

Lemma length_escape_all (s k : string) :
  (String.length k <= String.length (Json.escape_all s k))%nat.
Proof.
  induction s as [|c s IH]; [simpl; lia|].
  cbn [Json.escape_all]. unfold Json.escape.
  repeat match goal with |- context [if ?b then _ else _] => destruct b end; simpl; lia.
Qed.

Lemma length_member_text (key v k : string) :
  (String.length k <= String.length (JsonText.member key v k))%nat.
Proof.
  unfold JsonText.member.
  pose proof (length_escape_all v (String Json.quote k)) as H1.
  pose proof (length_escape_all key
                (String Json.quote (String ":" (String " " (String Json.quote (Json.escape_all v (String Json.quote k)))))))
    as H2.
  simpl in H1, H2. lia.
Qed.

Lemma length_entry_text (e : IndexEntry.t) (k : string) :
  (1 + String.length k <= String.length (JsonText.entry e k))%nat.
Proof.
  unfold JsonText.entry, JsonText.next_member.
  set (k3 := String Json.newline (String " " (String " " (String "}" k)))).
  set (t3 := JsonText.member "platform" (IndexEntry.platform e) k3).
  set (k2 := String "," (String Json.newline (String " " (String " " (String " " (String " " (String Json.quote t3))))))).
  set (t2 := JsonText.member "description" (IndexEntry.description e) k2).
  set (k1 := String "," (String Json.newline (String " " (String " " (String " " (String " " (String Json.quote t2))))))).
  pose proof (length_member_text "platform" (IndexEntry.platform e) k3) as H3.
  pose proof (length_member_text "description" (IndexEntry.description e) k2) as H2.
  pose proof (length_member_text "name" (IndexEntry.name e) k1) as H1.
  fold t3 in H3. fold t2 in H2.
  subst k1 k2 k3. cbn [String.length] in *. lia.
Qed.

Lemma length_items_text (e : IndexEntry.t) (l : list IndexEntry.t) (k : string) :
  (1 + length l <= String.length (JsonText.items e l k))%nat.
Proof.
  revert e; induction l as [|e' l IH]; intros e; cbn [JsonText.items length].
  - etransitivity; [|apply length_entry_text]. lia.
  - etransitivity; [|apply length_entry_text]. simpl. specialize (IH e'). lia.
Qed.

Lemma scan_once_array (f : nat) (e : IndexEntry.t) (l : list IndexEntry.t) (k : string) :
  Json.scan_once (S f) (String "[" (String Json.newline (String " " (String " " (JsonText.items e l k)))))
  = '(items, rest) ← Json.array_items f (JsonText.items e l k); Ok (Json.Arr items, rest).
Proof. destruct l; reflexivity. Qed.

Lemma loads_index (index : list IndexEntry.t) :
  Json.loads (JsonText.index index) = Ok (Json.Arr (map CacheManager.entry_json index)).
Proof.
  destruct index as [|e l]; [reflexivity|].
  unfold Json.loads.
  pose proof (length_items_text e l "") as Hlen.
  cbn [JsonText.index].
  set (text := String "[" (String Json.newline (String " " (String " " (JsonText.items e l ""))))).
  assert (Hfuel : exists m, (2 * String.length text + 2 = S (6 + m) /\ length l <= m)%nat).
  { exists (2 * String.length text + 2 - 7)%nat. subst text. cbn [String.length]. lia. }
  destruct Hfuel as (m & -> & Hm). subst text.
  change (Json.skip_ws (String "[" ?t)) with (String "[" t).
  rewrite scan_once_array, scan_items by assumption.
  reflexivity.
Qed.

Lemma load_entry_json (e : IndexEntry.t) :
  CacheManager.load_entry (CacheManager.entry_json e) = Ok e.
Proof. destruct e; reflexivity. Qed.

Lemma load_entries (l acc : list IndexEntry.t) :
  for_each (fun acc item => entry ← CacheManager.load_entry item; Ok (acc ++ [entry]))
    (map CacheManager.entry_json l) acc
  = Ok (acc ++ l).
Proof.
  revert acc; induction l as [|e l IH]; intros acc; cbn [map for_each].
  - now rewrite app_nil_r.
  - rewrite load_entry_json. cbn [mbind result_bind]. rewrite IH.
    now rewrite <- app_assoc.
Qed.

(** [json.dump] writes no carriage return (it escapes the one of a string),
so reading the file gives the text that was written. *)
Lemma read_text_plain (s : string) :
  Spec.has_char Io.CR s = false -> Io.read_text s = s.
Proof.
  induction s as [|c s IH]; [reflexivity|].
  cbn [Spec.has_char Io.read_text]. intros H. apply orb_false_elim in H as [Hc Hs].
  now rewrite Hc, IH.
Qed.

Lemma escape_no_cr (c : ascii) (k : string) :
  Spec.has_char Io.CR (Json.escape c k) = Spec.has_char Io.CR k.
Proof. destruct c as [[] [] [] [] [] [] [] []]; reflexivity. Qed.

Lemma escape_all_no_cr (s k : string) :
  Spec.has_char Io.CR (Json.escape_all s k) = Spec.has_char Io.CR k.
Proof.
  induction s as [|c s IH]; [reflexivity|].
  cbn [Json.escape_all]. now rewrite escape_no_cr.
Qed.

Ltac no_cr_step :=
  cbn [Spec.has_char Ascii.eqb Bool.eqb orb andb Json.quote Json.newline Io.CR].

Lemma member_no_cr (key v k : string) :
  Spec.has_char Io.CR (JsonText.member key v k) = Spec.has_char Io.CR k.
Proof.
  unfold JsonText.member. rewrite escape_all_no_cr. no_cr_step.
  rewrite escape_all_no_cr. no_cr_step. reflexivity.
Qed.

Lemma entry_no_cr (e : IndexEntry.t) (k : string) :
  Spec.has_char Io.CR (JsonText.entry e k) = Spec.has_char Io.CR k.
Proof.
  unfold JsonText.entry, JsonText.next_member. no_cr_step.
  rewrite member_no_cr. no_cr_step. rewrite member_no_cr. no_cr_step.
  rewrite member_no_cr. no_cr_step. reflexivity.
Qed.

Lemma items_no_cr (e : IndexEntry.t) (l : list IndexEntry.t) (k : string) :
  Spec.has_char Io.CR (JsonText.items e l k) = Spec.has_char Io.CR k.
Proof.
  revert e; induction l as [|e' l IH]; intros e; cbn [JsonText.items];
    rewrite entry_no_cr; no_cr_step; [reflexivity | apply IH].
Qed.

Lemma read_index_text (index : list IndexEntry.t) :
  Io.read_text (JsonText.index index) = JsonText.index index.
Proof.
  apply read_text_plain. destruct index as [|e l]; [reflexivity|].
  unfold JsonText.index. no_cr_step. now rewrite items_no_cr.
Qed.

(** C9. Saving an index and loading it again gives back the saved list:
the same entries, field for field, in the same order (for every list of
entries whose three fields are strings of this embedding). *)
Theorem save_load_index (cache : Cache.t) (index : list IndexEntry.t) :
  CacheManager._load_index (CacheManager._save_index cache index) = Ok index.
Proof.
  unfold CacheManager._load_index, CacheManager._save_index. cbn [Cache.index_json].
  rewrite dumps_index, read_index_text, loads_index.
  cbn [mbind result_bind CacheManager.iterate].
  apply (load_entries index []).
Qed.

(** ** Sorting *)

Section SortFacts.
Context {A K : Type} (le : K -> K -> bool) (key : A -> K).
Hypothesis le_total : forall a b, le a b = false -> le b a = true.
Hypothesis le_trans : forall a b c, le a b = true -> le b c = true -> le a c = true.

Lemma insert_sorted_perm (x : A) (l : list A) :
  Permutation (CacheManager.insert_sorted le key x l) (x :: l).
Proof.
  induction l as [|y l IH]; simpl; [reflexivity|].
  destruct (le (key x) (key y)); [reflexivity|].
  rewrite IH. apply perm_swap.
Qed.

Lemma sort_by_key_perm (l : list A) : Permutation (CacheManager.sort_by_key le key l) l.
Proof.
  induction l as [|x l IH]; simpl; [reflexivity|].
  rewrite insert_sorted_perm. now constructor.
Qed.

Lemma insert_sorted_sorted (x : A) (l : list A) :
  StronglySorted (fun a b => le (key a) (key b) = true) l ->
  StronglySorted (fun a b => le (key a) (key b) = true) (CacheManager.insert_sorted le key x l).
Proof.
  induction 1 as [|y l Hs IH Hy]; simpl; [repeat constructor|].
  destruct (le (key x) (key y)) eqn:Hxy.
  - constructor; [now constructor|]. constructor; [assumption|].
    eapply Forall_impl; [exact Hy|]. intros z Hz. cbv beta in Hz. eauto.
  - constructor; [assumption|].
    apply (Permutation_Forall (Permutation_sym (insert_sorted_perm x l))).
    constructor; [now apply le_total | assumption].
Qed.

Lemma sort_by_key_sorted (l : list A) :
  StronglySorted (fun a b => le (key a) (key b) = true) (CacheManager.sort_by_key le key l).
Proof.
  induction l as [|x l IH]; simpl; [constructor|]. now apply insert_sorted_sorted.
Qed.

(** The head of the sorted list: no element has a smaller key, and the
elements before it in the given list have a greater one. *)
Lemma sort_by_key_head (l : list A) (best : A) (rest : list A) :
  CacheManager.sort_by_key le key l = best :: rest ->
  exists pre post,
    l = pre ++ best :: post
    /\ Forall (fun m => le (key m) (key best) = false) pre
    /\ Forall (fun m => le (key best) (key m) = true) post.
Proof.
  revert best rest; induction l as [|x l IH]; intros best rest; simpl; [discriminate|].
  destruct (CacheManager.sort_by_key le key l) as [|y ys] eqn:Hsort.
  - pose proof (sort_by_key_perm l) as Hp. rewrite Hsort in Hp.
    apply Permutation_nil in Hp. subst l. simpl. intros [= <- <-].
    exists [], []. repeat split; constructor.
  - destruct (IH y ys eq_refl) as (pre & post & -> & Hpre & Hpost).
    simpl. destruct (le (key x) (key y)) eqn:Hxy; intros [= <- <-].
    + exists [], (pre ++ y :: post). repeat split; [constructor|].
      apply Forall_app; split; [|constructor].
      * eapply Forall_impl; [exact Hpre|]. intros m Hm. cbv beta in Hm. eauto.
      * assumption.
      * eapply Forall_impl; [exact Hpost|]. intros m Hm. cbv beta in Hm. eauto.
    + exists (x :: pre), post. repeat split; [now constructor | assumption].
Qed.

End SortFacts.

Lemma leb_total (a b : string) : Str.leb a b = false -> Str.leb b a = true.
Proof.
  revert b; induction a as [|x a IH]; intros [|y b]; simpl; try congruence.
  destruct (Nat.ltb_spec (Str.code x) (Str.code y)), (Nat.ltb_spec (Str.code y) (Str.code x));
    try congruence; try lia. apply IH.
Qed.

Lemma leb_trans (a b c : string) :
  Str.leb a b = true -> Str.leb b c = true -> Str.leb a c = true.
Proof.
  revert b c; induction a as [|x a IH]; intros [|y b] [|z c]; simpl; try congruence.
  destruct (Nat.ltb_spec (Str.code x) (Str.code y)), (Nat.ltb_spec (Str.code y) (Str.code x)),
    (Nat.ltb_spec (Str.code y) (Str.code z)), (Nat.ltb_spec (Str.code z) (Str.code y)),
    (Nat.ltb_spec (Str.code x) (Str.code z)), (Nat.ltb_spec (Str.code z) (Str.code x));
    try congruence; try lia. apply IH.
Qed.

Lemma key_le_total (a b : bool * string) :
  CacheManager.key_le a b = false -> CacheManager.key_le b a = true.
Proof.
  destruct a as [[] sa], b as [[] sb]; unfold CacheManager.key_le; simpl;
    try congruence; apply leb_total.
Qed.

Lemma key_le_trans (a b c : bool * string) :
  CacheManager.key_le a b = true -> CacheManager.key_le b c = true ->
  CacheManager.key_le a c = true.
Proof.
  destruct a as [[] sa], b as [[] sb], c as [[] sc]; unfold CacheManager.key_le; simpl;
    try congruence; apply leb_trans.
Qed.

Lemma key_le_preferred (command : string) (a b : IndexEntry.t) :
  CacheManager.key_le (CacheManager.match_key command a) (CacheManager.match_key command b) = true
  <-> Spec.preferred command a b.
Proof.
  unfold CacheManager.key_le, CacheManager.match_key, Spec.preferred, Spec.name_starts.
  cbn [fst snd].
  destruct (Str.startswith (Str.lower (IndexEntry.name a)) (Str.lower command)),
    (Str.startswith (Str.lower (IndexEntry.name b)) (Str.lower command)); simpl; intuition congruence.
Qed.

(** ** [find_page] *)

Lemma contains_refl (s : string) : Str.contains s s = true.
Proof. destruct s; simpl; [reflexivity|]. now rewrite ascii_eqb_refl, startswith_refl. Qed.

Lemma for_each_raise {A S : Type} (body : S -> A -> result S) (l : list A) (acc : S) (x : exn) :
  for_each body l acc = Raise x -> exists st a, In a l /\ body st a = Raise x.
Proof.
  revert acc; induction l as [|a l IH]; intros acc; simpl; [discriminate|].
  destruct (body acc a) as [acc'|e] eqn:Hb; simpl.
  - intros H. destruct (IH _ H) as (st & b & Hin & Hr). exists st, b. auto.
  - intros [= <-]. exists acc, a. auto.
Qed.

Lemma extract_placeholders_raise (command : string) (x : exn) :
  CacheManager._extract_placeholders command = Raise x -> exists msg, x = TypeError msg.
Proof.
  unfold CacheManager._extract_placeholders.
  destruct (for_each _ _ _) as [st|e] eqn:Hf; simpl; [discriminate|].
  intros [= <-]. apply for_each_raise in Hf as ([seen ps] & m & _ & Hstep).
  unfold CacheManager.extract_step in Hstep.
  destruct (CacheManager.seen_contains seen m); [discriminate|].
  unfold CacheManager.new_placeholder in Hstep.
  rewrite placeholder_with_type_keyword in Hstep. simpl in Hstep.
  injection Hstep as <-. eauto.
Qed.

Lemma parse_line_raise (st : CacheManager.parser) (line : string) (x : exn) :
  CacheManager.parse_line st line = Raise x ->
  exists msg, x = TypeError msg \/ x = AttributeError msg.
Proof.
  unfold CacheManager.parse_line.
  destruct (Str.startswith (Str.strip line) "# "); [discriminate|].
  destruct (Str.startswith (Str.strip line) "> "); [discriminate|].
  destruct (Str.startswith (Str.strip line) "- ").
  { rewrite example_without_command. simpl. intros [= <-]. eauto. }
  destruct (_ && _ && _).
  { destruct (CacheManager.current_example st).
    - destruct (CacheManager._extract_placeholders _) as [ps|e] eqn:He; simpl; [discriminate|].
      intros [= <-]. apply extract_placeholders_raise in He as [msg ->]. eauto.
    - intros [= <-]. eauto. }
  destruct (negb _); discriminate.
Qed.

Lemma load_page_raise (cache : Cache.t) (entry : IndexEntry.t) (msg : string) :
  CacheManager._load_page cache entry <> Raise (ValueError msg).
Proof.
  unfold CacheManager._load_page, CacheManager._parse_page.
  destruct (Cache.page_files cache !! _); [|discriminate].
  destruct (for_each _ _ _) as [st|e] eqn:Hf; simpl; [discriminate|].
  intros [= ->]. apply for_each_raise in Hf as (st & line & _ & Hl).
  apply parse_line_raise in Hl as (m & [H|H]); discriminate.
Qed.

Lemma find_first_exact (command : string) (pre post : list IndexEntry.t) (e : IndexEntry.t) :
  Forall (fun x => IndexEntry.name x <> command) pre ->
  IndexEntry.name e = command ->
  List.find (fun entry => String.eqb (IndexEntry.name entry) command) (pre ++ e :: post)
  = Some e.
Proof.
  intros Hpre He. induction Hpre as [|x pre Hx _ IH]; simpl.
  - now rewrite He, String.eqb_refl.
  - apply String.eqb_neq in Hx. now rewrite Hx.
Qed.

Lemma find_no_exact (command : string) (index : list IndexEntry.t) :
  Forall (fun x => IndexEntry.name x <> command) index ->
  List.find (fun entry => String.eqb (IndexEntry.name entry) command) index = None.
Proof.
  induction 1 as [|x l Hx _ IH]; simpl; [reflexivity|].
  apply String.eqb_neq in Hx. now rewrite Hx.
Qed.

Lemma filter_nil_iff {A : Type} (f : A -> bool) (l : list A) :
  List.filter f l = [] <-> Forall (fun x => f x = false) l.
Proof.
  induction l as [|x l IH]; simpl; [split; [constructor | reflexivity]|].
  destruct (f x) eqn:Hx.
  - split; [discriminate | intros H; inversion H; congruence].
  - rewrite IH. split; [now constructor | intros H; now inversion H].
Qed.

(** The selection of [find_page], with the index loaded: when some entry has
exactly the name asked for, [find_page] gives the page of the first such
entry of the index.
Otherwise, when some name contains the query (without regard to case), it
gives the page of the match [best] that no other match comes before in the
order of preference (a name that starts with the query first, then the
smaller name), the earliest in the index among the matches that are
equally good.  It fails with the error "not found" exactly when no name
contains the query.  "The page of an entry" is what [_load_page] gives for
that entry: a page, or the error of reading or parsing its file. *)
Lemma find_page_selection (cache : Cache.t) (index : list IndexEntry.t) (command : string) :
  CacheManager._load_index cache = Ok index ->
  (forall pre e post,
      index = pre ++ e :: post ->
      IndexEntry.name e = command ->
      Forall (fun x => IndexEntry.name x <> command) pre ->
      CacheManager.find_page cache command = CacheManager._load_page cache e)
  /\ (Forall (fun x => IndexEntry.name x <> command) index ->
      Exists (fun x => Spec.name_contains command x = true) index ->
      exists pre best post,
        List.filter (Spec.name_contains command) index = pre ++ best :: post
        /\ Forall (fun m => Spec.preferred command best m) (pre ++ post)
        /\ Forall (fun m => ~ Spec.preferred command m best) pre
        /\ CacheManager.find_page cache command = CacheManager._load_page cache best)
  /\ (CacheManager.find_page cache command
        = Raise (ValueError ("Command not found: " +:+ command))
      <-> Forall (fun x => Spec.name_contains command x = false) index).
Proof.
  intros Hload. unfold CacheManager.find_page. rewrite Hload. cbn [mbind result_bind].
  fold (Spec.name_contains command).
  split; [|split].
  - intros pre e post -> He Hpre. now rewrite find_first_exact.
  - intros Hno Hsome. rewrite find_no_exact by assumption.
    destruct (List.filter (Spec.name_contains command) index) as [|m0 ms] eqn:Hms.
    { apply filter_nil_iff in Hms. apply Exists_exists in Hsome as (x & Hx & Hc).
      rewrite Forall_forall in Hms. rewrite (Hms x Hx) in Hc. discriminate. }
    destruct (CacheManager.sort_by_key CacheManager.key_le (CacheManager.match_key command)
                (m0 :: ms)) as [|best rest] eqn:Hsort.
    { pose proof (sort_by_key_perm CacheManager.key_le (CacheManager.match_key command)
                    (m0 :: ms)) as Hp.
      rewrite Hsort in Hp. apply Permutation_nil in Hp. discriminate. }
    destruct (sort_by_key_head CacheManager.key_le (CacheManager.match_key command)
                key_le_total key_le_trans _ _ _ Hsort) as (pre & post & Heq & Hpre & Hpost).
    exists pre, best, post. rewrite Heq. split; [reflexivity|]. split; [|split; [|reflexivity]].
    + apply Forall_app; split.
      * eapply Forall_impl; [exact Hpre|]. intros m Hm. cbv beta in Hm.
        apply key_le_preferred. now apply key_le_total.
      * eapply Forall_impl; [exact Hpost|]. intros m Hm. now apply key_le_preferred.
    + eapply Forall_impl; [exact Hpre|]. intros m Hm Hp. cbv beta in Hm.
      apply key_le_preferred in Hp. congruence.
  - split.
    + intros Hfail.
      destruct (List.find _ index) as [e|] eqn:Hfind; [now apply load_page_raise in Hfail|].
      destruct (List.filter (Spec.name_contains command) index) as [|m0 ms] eqn:Hms;
        [now apply filter_nil_iff|].
      destruct (CacheManager.sort_by_key _ _ (m0 :: ms)); [discriminate|].
      now apply load_page_raise in Hfail.
    + intros Hnone.
      rewrite find_no_exact.
      * apply filter_nil_iff in Hnone. now rewrite Hnone.
      * eapply Forall_impl; [exact Hnone|]. intros x Hx Hname. cbv beta in Hx.
        unfold Spec.name_contains in Hx. rewrite Hname, contains_refl in Hx. discriminate.
Qed.

Lemma load_page_list_item (cache : Cache.t) (entry : IndexEntry.t) (stored : string) :
  Cache.page_files cache !! (IndexEntry.platform entry, IndexEntry.name entry) = Some stored ->
  Exists (fun line => Str.startswith (Str.strip line) "- " = true)
    (Str.split_lines (Io.read_text stored)) ->
  CacheManager._load_page cache entry
  = Raise (TypeError "missing 1 required positional argument: 'command'").
Proof.
  intros Hfile Hitem. unfold CacheManager._load_page, CacheManager._parse_page.
  rewrite Hfile. now rewrite parse_lines_marker.
Qed.

Lemma load_page_returned (cache : Cache.t) (entry : IndexEntry.t) (page : Page.t) :
  CacheManager._load_page cache entry = Ok page ->
  Page.examples page = []
  /\ Forall (fun line => Str.startswith (Str.strip line) "- " = false)
       (Str.split_lines (Page.raw_content page)).
Proof.
  unfold CacheManager._load_page.
  destruct (Cache.page_files cache !! _) as [stored|]; [|discriminate].
  unfold CacheManager._parse_page.
  assert (Hdec : Exists (fun line => Str.startswith (Str.strip line) "- " = true)
                   (Str.split_lines (Io.read_text stored))
                 \/ Forall (fun line => Str.startswith (Str.strip line) "- " = false)
                      (Str.split_lines (Io.read_text stored))).
  { induction (Str.split_lines (Io.read_text stored)) as [|line lines [IH|IH]].
    - right. constructor.
    - left. now apply Exists_cons_tl.
    - destruct (Str.startswith (Str.strip line) "- ") eqn:H.
      + left. now apply Exists_cons_hd.
      + right. now constructor. }
  destruct Hdec as [Hitem|Hplain].
  - rewrite parse_lines_marker by auto. discriminate.
  - destruct (parse_lines_plain (Str.split_lines (Io.read_text stored))
                (CacheManager.Parser (IndexEntry.description entry) [] None false)
                eq_refl eq_refl Hplain) as (st & -> & Hcur & Hexs).
    cbn [mbind result_bind]. intros [= <-].
    cbn [Page.examples Page.raw_content]. unfold CacheManager.append_current.
    rewrite Hcur, Hexs. auto.
Qed.

(** The spec's tar page in the cache, under the entry of its index. *)
Lemma find_page_tar_cache_index :
  CacheManager._load_index tar_page_cache = Ok [tar_entry].
Proof. reflexivity. Qed.

(** C6. Where the claim fails: [find_page] selects the entry as the claim
says, but it returns the page of that entry only when the text of the page
has no list item.  When the file of the entry selected (the first with
exactly the name asked for, or else the best of the partial matches) has a
line that starts, once stripped, with the list marker, [find_page] raises
[TypeError], the error of the parser; so whatever page it returns has no
example and no list item in its text.  On the tar page of the
specification, the call for [tar] raises. *)
Theorem find_page_list_item_raises (cache : Cache.t) (index : list IndexEntry.t)
  (command : string) :
  CacheManager._load_index cache = Ok index ->
  (forall pre e post stored,
      index = pre ++ e :: post ->
      IndexEntry.name e = command ->
      Forall (fun x => IndexEntry.name x <> command) pre ->
      Cache.page_files cache !! (IndexEntry.platform e, IndexEntry.name e) = Some stored ->
      Exists (fun line => Str.startswith (Str.strip line) "- " = true)
        (Str.split_lines (Io.read_text stored)) ->
      CacheManager.find_page cache command
      = Raise (TypeError "missing 1 required positional argument: 'command'"))
  /\ (Forall (fun x => IndexEntry.name x <> command) index ->
      Exists (fun x => Spec.name_contains command x = true) index ->
      exists pre best post,
        List.filter (Spec.name_contains command) index = pre ++ best :: post
        /\ Forall (fun m => Spec.preferred command best m) (pre ++ post)
        /\ Forall (fun m => ~ Spec.preferred command m best) pre
        /\ forall stored,
             Cache.page_files cache !! (IndexEntry.platform best, IndexEntry.name best)
             = Some stored ->
             Exists (fun line => Str.startswith (Str.strip line) "- " = true)
               (Str.split_lines (Io.read_text stored)) ->
             CacheManager.find_page cache command
             = Raise (TypeError "missing 1 required positional argument: 'command'"))
  /\ (forall page,
         CacheManager.find_page cache command = Ok page ->
         Page.examples page = []
         /\ Forall (fun line => Str.startswith (Str.strip line) "- " = false)
              (Str.split_lines (Page.raw_content page))).
Proof.
  intros Hload.
  destruct (find_page_selection cache index command Hload) as (Hexact & Hpartial & _).
  split; [|split].
  - intros pre e post stored Hidx Hname Hpre Hfile Hitem.
    rewrite (Hexact pre e post Hidx Hname Hpre). now apply (load_page_list_item _ _ stored).
  - intros Hno Hsome.
    destruct (Hpartial Hno Hsome) as (pre & best & post & Hf & Hpref & Hfirst & Hfind).
    exists pre, best, post. split; [assumption|]. split; [assumption|].
    split; [assumption|]. intros stored Hfile Hitem.
    rewrite Hfind. now apply (load_page_list_item _ _ stored).
  - intros page. unfold CacheManager.find_page. rewrite Hload. cbn [mbind result_bind].
    destruct (List.find _ index) as [e|]; [apply load_page_returned|].
    destruct (List.filter _ index) as [|m ms]; [discriminate|].
    destruct (CacheManager.sort_by_key _ _ (m :: ms)) as [|best rest]; [discriminate|].
    apply load_page_returned.
Qed.

Lemma find_page_list_item_raises_witness :
  CacheManager._load_index tar_page_cache = Ok [tar_entry]
  /\ CacheManager.find_page tar_page_cache "tar"
     = Raise (TypeError "missing 1 required positional argument: 'command'").
Proof.
  split; [reflexivity|].
  apply (proj1 (find_page_list_item_raises tar_page_cache [tar_entry] "tar"
                  find_page_tar_cache_index) [] tar_entry [] tar_page_text).
  - reflexivity.
  - reflexivity.
  - constructor.
  - reflexivity.
  - do 4 apply Exists_cons_tl. apply Exists_cons_hd. reflexivity.
Defined.

Lemma strongly_sorted_impl {A : Type} (P Q : A -> A -> Prop) (l : list A) :
  (forall a b, P a b -> Q a b) -> StronglySorted P l -> StronglySorted Q l.
Proof.
  intros HPQ. induction 1 as [|x l Hs IH Hx]; constructor; [assumption|].
  eapply Forall_impl; [exact Hx|]. intros y Hy. now apply HPQ.
Qed.

(** Along the result of [search_pages] the scores never decrease. *)
Lemma search_pages_sorted (cache : Cache.t) (query : string) (platforms : list string)
  (pages : list Page.t) :
  CacheManager.search_pages cache query platforms = Ok pages ->
  StronglySorted
    (fun a b => CacheManager._calculate_relevance_score a query
                <= CacheManager._calculate_relevance_score b query) pages.
Proof.
  unfold CacheManager.search_pages.
  destruct (CacheManager._load_index cache) as [index|]; simpl; [|discriminate].
  intros [= <-].
  eapply strongly_sorted_impl;
    [|apply (sort_by_key_sorted Z.leb (fun x => CacheManager._calculate_relevance_score x query))].
  - intros a b H. now apply Z.leb_le.
  - intros a b H. apply Z.leb_gt in H. apply Z.leb_le. lia.
  - intros a b c H1 H2. apply Z.leb_le in H1, H2. apply Z.leb_le. lia.
Qed.

(** ** [extract] *)

Ltac str_norm := repeat (rewrite ?append_assoc, ?append_cons, ?append_nil_l).
Ltac str_norm_in H := repeat (rewrite ?append_assoc, ?append_cons, ?append_nil_l in H).

Lemma span_not_rbrace_run (run rest : string) :
  Spec.has_char Re.rbrace run = false ->
  Re.span_not_rbrace (run +:+ String Re.rbrace rest) = (run, String Re.rbrace rest).
Proof.
  induction run as [|c run IH]; [reflexivity|].
  cbn [Spec.has_char]. intros H. apply orb_false_elim in H as [Hc Hrun].
  rewrite append_cons. cbn [Re.span_not_rbrace]. rewrite Hc, IH by assumption. reflexivity.
Qed.

Lemma match_placeholder_token (name rest : string) :
  name <> EmptyString -> Spec.has_char Re.rbrace name = false ->
  Re.match_placeholder (Re.token name +:+ rest) = Some name.
Proof.
  intros Hne Hrb. unfold Re.token.
  str_norm.
  cbn [Re.match_placeholder]. rewrite !ascii_eqb_refl. cbn [andb].
  rewrite span_not_rbrace_run by assumption.
  destruct name; [congruence|]. reflexivity.
Qed.

Lemma findall_from_0 (c : ascii) (t : string) :
  Re.findall_from 0 (String c t)
  = match Re.match_placeholder (String c t) with
    | Some name => name :: Re.findall_from (String.length name + 3) t
    | None => Re.findall_from 0 t
    end.
Proof. reflexivity. Qed.

Lemma findall_from_skip (u s : string) :
  Re.findall_from (String.length u) (u +:+ s) = Re.findall_from 0 s.
Proof.
  induction u as [|c u IH]; [reflexivity|].
  rewrite append_cons. cbn [String.length Re.findall_from]. exact IH.
Qed.

Lemma match_placeholder_not_lbrace (c : ascii) (s : string) :
  Ascii.eqb c Re.lbrace = false -> Re.match_placeholder (String c s) = None.
Proof. intros H. unfold Re.match_placeholder. destruct s; [reflexivity|]. now rewrite H. Qed.

Lemma findall_pass (pre s : string) :
  Spec.has_char Re.lbrace pre = false ->
  Re.findall_from 0 (pre +:+ s) = Re.findall_from 0 s.
Proof.
  induction pre as [|c pre IH]; [reflexivity|].
  cbn [Spec.has_char]. intros H. apply orb_false_elim in H as [Hc Hpre].
  rewrite append_cons, findall_from_0.
  rewrite match_placeholder_not_lbrace by assumption. now apply IH.
Qed.

(** The leftmost token is found, and the search resumes after it. *)
Lemma findall_leftmost (pre name post : string) :
  Spec.has_char Re.lbrace pre = false ->
  name <> EmptyString -> Spec.has_char Re.rbrace name = false ->
  Re.findall_placeholders (pre +:+ Re.token name +:+ post)
  = name :: Re.findall_placeholders post.
Proof.
  intros Hpre Hne Hrb. unfold Re.findall_placeholders.
  rewrite findall_pass by assumption.
  pose proof (match_placeholder_token name post Hne Hrb) as Hm.
  unfold Re.token in *.
  str_norm. str_norm_in Hm.
  rewrite findall_from_0, Hm. f_equal.
  replace (String "{" (name +:+ String "}" (String "}" post)))
    with (String "{" (name +:+ "}}") +:+ post) by (str_norm; reflexivity).
  replace (String.length name + 3)%nat with (String.length (String "{" (name +:+ "}}")))
    by (cbn [String.length]; rewrite length_append; simpl; lia).
  apply findall_from_skip.
Qed.

Lemma extract_step_eq (seen : list string) (acc : list Placeholder.t) (m : string) :
  CacheManager.extract_step (seen, acc) m
  = if CacheManager.seen_contains seen m then Ok (seen, acc)
    else p ← CacheManager.new_placeholder m; Ok (m :: seen, acc ++ [p]).
Proof. reflexivity. Qed.

Lemma extract_loop (ms seen : list string) (acc : list Placeholder.t) :
  snd <$> for_each CacheManager.extract_step ms (seen, acc)
  = (ps ← Spec.map_result CacheManager.new_placeholder (Spec.new_names seen ms); Ok (acc ++ ps)).
Proof.
  revert seen acc; induction ms as [|m ms IH]; intros seen acc.
  - cbn. now rewrite app_nil_r.
  - cbn [for_each Spec.new_names]. rewrite extract_step_eq.
    destruct (CacheManager.seen_contains seen m); cbn [mbind result_bind].
    + apply IH.
    + cbn [Spec.map_result].
      destruct (CacheManager.new_placeholder m) as [p|e]; cbn [mbind result_bind]; [|reflexivity].
      rewrite IH.
      destruct (Spec.map_result CacheManager.new_placeholder (Spec.new_names (m :: seen) ms)) as [ps|e];
        cbn [mbind result_bind]; [|reflexivity].
      now rewrite <- app_assoc.
Qed.

Lemma filter_absorb {A : Type} (f g : A -> bool) (l : list A) :
  (forall x, f x = true -> g x = true) ->
  List.filter f (List.filter g l) = List.filter f l.
Proof.
  intros Hfg. induction l as [|x l IH]; simpl; [reflexivity|].
  destruct (g x) eqn:Hg; simpl.
  - destruct (f x); now rewrite IH.
  - destruct (f x) eqn:Hf; [|exact IH]. apply Hfg in Hf. congruence.
Qed.

Lemma filter_filter_and {A : Type} (f g : A -> bool) (l : list A) :
  List.filter f (List.filter g l) = List.filter (fun x => g x && f x) l.
Proof.
  induction l as [|x l IH]; simpl; [reflexivity|].
  destruct (g x); simpl; [destruct (f x)|]; now rewrite IH.
Qed.

Lemma filter_true {A : Type} (l : list A) : List.filter (fun _ => true) l = l.
Proof. induction l as [|x l IH]; simpl; [reflexivity|]. now rewrite IH. Qed.

Lemma filter_ext_bool {A : Type} (f g : A -> bool) (l : list A) :
  (forall x, f x = g x) -> List.filter f l = List.filter g l.
Proof. intros H. induction l as [|x l IH]; simpl; [reflexivity|]. now rewrite H, IH. Qed.

Lemma new_names_filter (ms seen : list string) :
  Spec.new_names seen ms
  = List.filter (fun m => negb (CacheManager.seen_contains seen m)) (Spec.first_occurrences ms).
Proof.
  revert seen; induction ms as [|m ms IH]; intros seen; [reflexivity|].
  cbn [Spec.new_names Spec.first_occurrences List.filter].
  destruct (CacheManager.seen_contains seen m) eqn:Hseen; cbn [negb].
  - rewrite IH. symmetry. apply filter_absorb.
    intros x Hx. destruct (String.eqb_spec x m) as [->|]; [|reflexivity].
    rewrite Hseen in Hx. discriminate.
  - f_equal. rewrite IH, filter_filter_and. apply filter_ext_bool.
    intros x. cbn [CacheManager.seen_contains existsb]. now rewrite negb_orb.
Qed.

Lemma extract_placeholders_eq (command : string) :
  CacheManager._extract_placeholders command
  = Spec.map_result CacheManager.new_placeholder
      (Spec.first_occurrences (Re.findall_placeholders command)).
Proof.
  unfold CacheManager._extract_placeholders.
  pose proof (extract_loop (Re.findall_placeholders command) [] []) as H.
  rewrite new_names_filter in H. cbn [CacheManager.seen_contains existsb negb] in H.
  rewrite filter_true in H.
  destruct (for_each CacheManager.extract_step _ _) as [st|e]; cbn in H |- *;
    destruct (Spec.map_result _ _); cbn in H; congruence.
Qed.

(** C7. Where the claim fails: [_extract_placeholders] builds no placeholder.
On every template with a token (two opening braces, a name of one character
or more without a closing brace, two closing braces, after text without an
opening brace) it raises [TypeError], since the placeholder is built with
the keyword [type], which the constructor does not have.  What it returns
is the empty list, and only for a template in which the pattern finds
nothing.  On a template of the tests, it raises. *)
Theorem extract_placeholders_builds_nothing :
  (forall pre name post,
      Spec.has_char Re.lbrace pre = false ->
      name <> EmptyString ->
      Spec.has_char Re.rbrace name = false ->
      CacheManager._extract_placeholders (pre +:+ Re.token name +:+ post)
      = Raise (TypeError "got an unexpected keyword argument 'type'"))
  /\ (forall command ps,
         CacheManager._extract_placeholders command = Ok ps ->
         ps = [] /\ Re.findall_placeholders command = [])
  /\ CacheManager._extract_placeholders "cp {{src}} {{dest}}"
     = Raise (TypeError "got an unexpected keyword argument 'type'").
Proof.
  split; [|split; [|reflexivity]].
  - intros pre name post Hpre Hne Hrb.
    rewrite extract_placeholders_eq, findall_leftmost by assumption.
    cbn [Spec.first_occurrences Spec.map_result]. unfold CacheManager.new_placeholder.
    now rewrite placeholder_with_type_keyword.
  - intros command ps. rewrite extract_placeholders_eq.
    destruct (Re.findall_placeholders command) as [|m ms].
    + cbn [Spec.first_occurrences Spec.map_result]. now intros [= <-].
    + cbn [Spec.first_occurrences Spec.map_result]. unfold CacheManager.new_placeholder.
      rewrite placeholder_with_type_keyword. discriminate.
Qed.

Lemma extract_placeholders_builds_nothing_witness :
  CacheManager._extract_placeholders ("tar -xf " +:+ Re.token "file" +:+ "")
  = Raise (TypeError "got an unexpected keyword argument 'type'").
Proof.
  apply (proj1 extract_placeholders_builds_nothing "tar -xf " "file" "").
  - reflexivity.
  - discriminate.
  - reflexivity.
Defined.

(** ** [render] *)

(** The compiler's reading of line 62: the first brace of the literal is not
doubled (a backslash follows it), so it opens a replacement field, and the
expression of that field begins with a backslash. *)
Lemma pattern_literal_refused :
  FString.read Example.pattern_literal = Raise (SyntaxError FString.backslash_refused).
Proof. reflexivity. Qed.

Lemma render_refused
  (substitute : list FString.piece -> Placeholder.t -> string -> string -> result string)
  (self : Example.t) (variables : gmap string string) :
  Example.render substitute self variables = Raise (SyntaxError FString.backslash_refused).
Proof. unfold Example.render. now rewrite pattern_literal_refused. Qed.

(** C4. Where the claim fails: no call of [render] returns a command, since
the f-string of line 62 is refused by the compiler; so no value is resolved
and no token replaced.  In particular the two examples of the claim, on the
example as the constructor builds it and on the example that holds the
placeholder [file], and the example with a declared default of the tests,
have the compiler's error for result. *)
Theorem render_refuses_every_call
  (substitute : list FString.piece -> Placeholder.t -> string -> string -> result string) :
  (forall self variables,
      Example.render substitute self variables
      = Raise (SyntaxError FString.backslash_refused))
  /\ (ex ← Example.__init__ [Example.Text "Extract"; Example.Text "tar -xf {{file}}"] [];
      Example.render substitute ex {[ "file" := "a.tar.gz" ]})
     = Raise (SyntaxError FString.backslash_refused)
  /\ Example.render substitute
       (Example.Build "Extract" "tar -xf {{file}}" [file_placeholder ""])
       {[ "file" := "a.tar.gz" ]}
     = Raise (SyntaxError FString.backslash_refused)
  /\ Example.render substitute
       (Example.Build "Extract" "tar -xf {{file}}" [file_placeholder ""]) ∅
     = Raise (SyntaxError FString.backslash_refused)
  /\ Example.render substitute
       (Example.Build "Extract archive" "tar -xf {{file}}"
          [Placeholder.Build "file" "file" "Input file" "default.tar.gz"]) ∅
     = Raise (SyntaxError FString.backslash_refused).
Proof.
  split; [apply render_refused|].
  split; [apply render_refused|].
  split; [apply render_refused|].
  split; apply render_refused.
Qed.

(** C5. Where the claim fails: on an example with two placeholders, each
bound to a value, substituting the values independently gives [cp a.txt
b.txt]; [render] gives no command, as the method is refused by the compiler
(the defect of C4). *)
Theorem render_two_placeholders_raises
  (substitute : list FString.piece -> Placeholder.t -> string -> string -> result string) :
  Example.render substitute
    (Example.Build "Copy a file" "cp {{src}} {{dest}}"
       [Placeholder.Build "src" "text" "" ""; Placeholder.Build "dest" "text" "" ""])
    {[ "src" := "a.txt"; "dest" := "b.txt" ]}
  = Raise (SyntaxError FString.backslash_refused)
  /\ Example.render substitute
       (Example.Build "Copy a file" "cp {{src}} {{dest}}"
          [Placeholder.Build "src" "text" "" ""; Placeholder.Build "dest" "text" "" ""])
       {[ "src" := "a.txt"; "dest" := "b.txt" ]}
     <> Ok "cp a.txt b.txt".
Proof. rewrite render_refused. split; [reflexivity | discriminate]. Qed.

(** C10. Where the claim fails: for an example without placeholders [render]
does not return the command template; it returns nothing, for every template
and every mapping, as the method is refused by the compiler (the defect of
C4). *)
Theorem render_without_placeholders_raises
  (substitute : list FString.piece -> Placeholder.t -> string -> string -> result string)
  (description command : string) (variables : gmap string string) :
  Example.render substitute (Example.Build description command []) variables
  = Raise (SyntaxError FString.backslash_refused)
  /\ Example.render substitute (Example.Build description command []) variables
     <> Ok command.
Proof. rewrite render_refused. split; [reflexivity | discriminate]. Qed.

(** * The rest of [cache.py], [app.py] and the variables of [cli.py] *)

(** ** More on the page parser *)

Lemma list_item_lines_dec (lines : list string) :
  Exists (fun line => Str.startswith (Str.strip line) "- " = true) lines
  \/ Forall (fun line => Str.startswith (Str.strip line) "- " = false) lines.
Proof.
  induction lines as [|line lines [IH|IH]].
  - right. constructor.
  - left. now apply Exists_cons_tl.
  - destruct (Str.startswith (Str.strip line) "- ") eqn:H.
    + left. now apply Exists_cons_hd.
    + right. now constructor.
Qed.

Lemma parse_line_description (st : CacheManager.parser) (line : string) :
  CacheManager.current_example st = None ->
  CacheManager.in_example st = false ->
  Str.startswith (Str.strip line) "- " = false ->
  exists st', CacheManager.parse_line st line = Ok st'
              /\ CacheManager.current_example st' = None
              /\ CacheManager.in_example st' = false
              /\ CacheManager.page_examples st' = CacheManager.page_examples st
              /\ CacheManager.page_description st'
                 = description_after (CacheManager.page_description st) line.
Proof.
  intros Hcur Hin Hmark. unfold CacheManager.parse_line, description_after.
  rewrite Hmark, Hin, andb_false_r.
  destruct (Str.startswith (Str.strip line) "# "); [exists st; auto|].
  destruct (Str.startswith (Str.strip line) "> "); [eexists; simpl; eauto 6|].
  destruct (negb (Str.truthy (Str.strip line))); [eexists; simpl; eauto 6 | exists st; auto].
Qed.

Lemma parse_lines_description (lines : list string) (st : CacheManager.parser) :
  CacheManager.current_example st = None ->
  CacheManager.in_example st = false ->
  Forall (fun line => Str.startswith (Str.strip line) "- " = false) lines ->
  exists st', for_each CacheManager.parse_line lines st = Ok st'
              /\ CacheManager.current_example st' = None
              /\ CacheManager.page_examples st' = CacheManager.page_examples st
              /\ CacheManager.page_description st'
                 = fold_left description_after lines (CacheManager.page_description st).
Proof.
  revert st; induction lines as [|line lines IH]; intros st Hcur Hin Hall.
  - exists st. now simpl.
  - inversion Hall as [|? ? Hmark Hrest]; subst. cbn [for_each fold_left].
    destruct (parse_line_description st line Hcur Hin Hmark)
      as (st' & -> & Hcur' & Hin' & Hex' & Hd').
    cbn [mbind result_bind].
    destruct (IH st' Hcur' Hin' Hrest) as (st'' & Hrun & Hcur'' & Hex'' & Hd'').
    exists st''. rewrite Hrun, Hex'', Hex', Hd'', Hd'. auto.
Qed.

Lemma parse_page_result (content : string) (entry : IndexEntry.t) (page : Page.t) :
  CacheManager._parse_page content entry = Ok page ->
  Page.examples page = []
  /\ Page.name page = IndexEntry.name entry
  /\ Page.platform page = IndexEntry.platform entry
  /\ Page.raw_content page = content
  /\ Page.description page
     = fold_left description_after (Str.split_lines content) (IndexEntry.description entry).
Proof.
  intros Hparse.
  destruct (list_item_lines_dec (Str.split_lines content)) as [Hex|Hall].
  - unfold CacheManager._parse_page in Hparse.
    rewrite parse_lines_marker in Hparse by auto. discriminate.
  - unfold CacheManager._parse_page in Hparse.
    destruct (parse_lines_description (Str.split_lines content)
                (CacheManager.Parser (IndexEntry.description entry) [] None false)
                eq_refl eq_refl Hall) as (st & Hrun & Hcur & Hexs & Hd).
    rewrite Hrun in Hparse. cbn [mbind result_bind] in Hparse. injection Hparse as <-.
    cbn [Page.examples Page.name Page.platform Page.raw_content Page.description].
    unfold CacheManager.append_current. rewrite Hcur, Hexs, Hd. auto.
Qed.

(** X1. Whenever [_parse_page] returns, the page has no example at all: a
text with a list item makes it raise, and only list items start examples.
The name and the platform of the page are those of the index entry, and the
raw content is the text that was parsed. *)
Theorem parse_page_never_yields_examples (content : string) (entry : IndexEntry.t)
  (page : Page.t) :
  CacheManager._parse_page content entry = Ok page ->
  Page.examples page = []
  /\ Page.name page = IndexEntry.name entry
  /\ Page.platform page = IndexEntry.platform entry
  /\ Page.raw_content page = content.
Proof. intros H. apply parse_page_result in H. tauto. Qed.

Lemma parse_page_never_yields_examples_witness :
  CacheManager._parse_page described_page_text tar_entry = Ok described_page
  /\ Page.examples described_page = []
  /\ Page.name described_page = IndexEntry.name tar_entry
  /\ Page.platform described_page = IndexEntry.platform tar_entry
  /\ Page.raw_content described_page = described_page_text.
Proof.
  split; [reflexivity|].
  apply (parse_page_never_yields_examples described_page_text tar_entry described_page).
  reflexivity.
Defined.

Lemma quote_line_not_title (line : string) :
  Str.startswith (Str.strip line) "> " = true -> Str.startswith (Str.strip line) "# " = false.
Proof.
  intros H. apply startswith_spec in H as [r ->]. reflexivity.
Qed.

Lemma description_last_quote (post : list string) (d : string) :
  Forall (fun line => Str.startswith (Str.strip line) "> " = false) post ->
  fold_left description_after post d = d.
Proof.
  intros H. revert d. induction H as [|line post Hl _ IH]; intros d; [reflexivity|].
  cbn [fold_left]. rewrite IH. unfold description_after. rewrite Hl.
  now destruct (Str.startswith (Str.strip line) "# ").
Qed.

(** X2. The description of a parsed page: the entry's description when no
line of the text starts, once stripped, with [> ]; otherwise what follows
the [> ] on the last such line. *)
Theorem parse_page_description (content : string) (entry : IndexEntry.t) (page : Page.t) :
  CacheManager._parse_page content entry = Ok page ->
  (Forall (fun line => Str.startswith (Str.strip line) "> " = false) (Str.split_lines content) ->
   Page.description page = IndexEntry.description entry)
  /\ (forall pre line post,
         Str.split_lines content = pre ++ line :: post ->
         Str.startswith (Str.strip line) "> " = true ->
         Forall (fun l => Str.startswith (Str.strip l) "> " = false) post ->
         Page.description page = Str.drop 2 (Str.strip line)).
Proof.
  intros H. apply parse_page_result in H as (_ & _ & _ & _ & ->). split.
  - apply description_last_quote.
  - intros pre line post -> Hq Hpost.
    rewrite fold_left_app. cbn [fold_left]. rewrite description_last_quote by assumption.
    unfold description_after. now rewrite (quote_line_not_title _ Hq), Hq.
Qed.

Lemma parse_page_description_witness :
  CacheManager._parse_page described_page_text tar_entry = Ok described_page
  /\ Page.description described_page = Str.drop 2 (Str.strip "> Archiving tool").
Proof.
  split; [reflexivity|].
  apply (proj2 (parse_page_description described_page_text tar_entry described_page eq_refl)
           ["# tar"] "> Archiving tool" [""]).
  - reflexivity.
  - reflexivity.
  - repeat constructor.
Defined.

(** ** [find_best_example] *)

Lemma find_first_match {A : Type} (f : A -> bool) (pre post : list A) (x : A) :
  Forall (fun y => f y = false) pre -> f x = true ->
  List.find f (pre ++ x :: post) = Some x.
Proof.
  intros Hpre Hx. induction Hpre as [|y pre Hy _ IH]; simpl.
  - now rewrite Hx.
  - now rewrite Hy.
Qed.

Lemma find_none_all {A : Type} (f : A -> bool) (l : list A) :
  Forall (fun y => f y = false) l -> List.find f l = None.
Proof. induction 1 as [|y l Hy _ IH]; simpl; [reflexivity|]. now rewrite Hy. Qed.

(** X4. [find_best_example] gives nothing exactly for a page without
examples; what it gives is an example of the page: the first one whose
lower-cased description contains the lower-cased query, and the first
example of the page when none does. *)
Theorem find_best_example_choice (page : Page.t) (query : string) :
  (PageMethods.find_best_example page query = None <-> Page.examples page = [])
  /\ (forall example,
         PageMethods.find_best_example page query = Some example ->
         In example (Page.examples page))
  /\ (forall pre example post,
         Page.examples page = pre ++ example :: post ->
         Forall (fun e => PageMethods.description_matches (Str.lower query) e = false) pre ->
         PageMethods.description_matches (Str.lower query) example = true ->
         PageMethods.find_best_example page query = Some example)
  /\ (forall first rest,
         Page.examples page = first :: rest ->
         Forall (fun e => PageMethods.description_matches (Str.lower query) e = false)
           (Page.examples page) ->
         PageMethods.find_best_example page query = Some first).
Proof.
  unfold PageMethods.find_best_example.
  destruct (Page.examples page) as [|first rest] eqn:Hexs.
  - split; [tauto|]. split; [discriminate|]. split.
    + intros [|? ?] ? ? H; discriminate.
    + discriminate.
  - split.
    { split; [|discriminate].
      destruct (List.find _ (first :: rest)); discriminate. }
    split.
    { intros example.
      destruct (List.find _ (first :: rest)) as [e|] eqn:Hfind.
      - intros [= <-]. now apply find_some in Hfind.
      - intros [= <-]. now left. }
    split.
    { intros pre example post -> Hpre Hm. now rewrite find_first_match. }
    intros first' rest' [= <- <-] Hnone. now rewrite find_none_all.
Qed.

Lemma find_best_example_choice_witness :
  PageMethods.find_best_example
    (Page.Build "tar" "Archive utility" "linux" [extract_example; list_example] "") "LIST"
  = Some list_example.
Proof.
  apply (proj1 (proj2 (proj2 (find_best_example_choice
           (Page.Build "tar" "Archive utility" "linux" [extract_example; list_example] "")
           "LIST"))) [extract_example] list_example []).
  - reflexivity.
  - repeat constructor.
  - reflexivity.
Defined.

(** ** More on [search_pages] *)

Lemma search_step_in (cache : Cache.t) (query : string) (platforms : list string)
  (results : list Page.t) (entry : IndexEntry.t) (page : Page.t) :
  In page (CacheManager.search_step cache (Str.lower query) platforms results entry)
  <-> In page results
      \/ (selected query platforms entry = true
          /\ CacheManager._load_page cache entry = Ok page).
Proof.
  unfold CacheManager.search_step, selected.
  destruct platforms as [|p ps]; cbn [andb orb negb].
  - destruct (_ || _); cbn [andb].
    + destruct (CacheManager._load_page cache entry) as [pg|e].
      * rewrite in_app_iff. cbn [In]. split; [intros [H|[<-|[]]]; auto|].
        intros [H|[_ [= <-]]]; auto.
      * split; [auto|]. intros [H|[_ H]]; [assumption|discriminate].
    + split; [auto|]. intros [H|[H _]]; [assumption|discriminate].
  - destruct (existsb _ (p :: ps)); cbn [andb orb negb].
    + destruct (_ || _).
      * destruct (CacheManager._load_page cache entry) as [pg|e].
        -- rewrite in_app_iff. cbn [In]. split; [intros [H|[<-|[]]]; auto|].
           intros [H|[_ [= <-]]]; auto.
        -- split; [auto|]. intros [H|[_ H]]; [assumption|discriminate].
      * split; [auto|]. intros [H|[H _]]; [assumption|discriminate].
    + split; [auto|]. intros [H|[H _]]; [assumption|discriminate].
Qed.

Lemma search_fold_in (cache : Cache.t) (query : string) (platforms : list string)
  (index : list IndexEntry.t) (results : list Page.t) (page : Page.t) :
  In page (fold_left (CacheManager.search_step cache (Str.lower query) platforms) index results)
  <-> In page results
      \/ exists entry, In entry index
                       /\ selected query platforms entry = true
                       /\ CacheManager._load_page cache entry = Ok page.
Proof.
  revert results; induction index as [|entry index IH]; intros results; cbn [fold_left].
  - split; [auto|]. intros [H|(e & [] & _)]. assumption.
  - rewrite IH, search_step_in. split.
    + intros [[H|[Hs Hl]]|(e & Hin & Hs & Hl)]; [auto| |].
      * right. exists entry. cbn [In]. auto.
      * right. exists e. cbn [In]. auto.
    + intros [H|(e & [<-|Hin] & Hs & Hl)]; [auto|auto|].
      right. exists e. auto.
Qed.

Lemma sort_by_key_in {A K : Type} (le : K -> K -> bool) (key : A -> K) (l : list A) (x : A) :
  In x (CacheManager.sort_by_key le key l) <-> In x l.
Proof.
  split; apply Permutation_in; [|symmetry]; apply sort_by_key_perm.
Qed.

Lemma search_pages_in (cache : Cache.t) (query : string) (platforms : list string)
  (pages : list Page.t) (page : Page.t) :
  CacheManager.search_pages cache query platforms = Ok pages ->
  In page pages ->
  exists entry, selected query platforms entry = true
                /\ CacheManager._load_page cache entry = Ok page.
Proof.
  unfold CacheManager.search_pages.
  destruct (CacheManager._load_index cache) as [index|e]; cbn [mbind result_bind];
    [|discriminate].
  intros [= <-]. rewrite sort_by_key_in, search_fold_in. cbn [In].
  intros [[]|(entry & _ & Hs & Hl)]. eauto.
Qed.

Lemma search_pages_complete (cache : Cache.t) (index : list IndexEntry.t) (query : string)
  (platforms : list string) (entry : IndexEntry.t) (page : Page.t) :
  CacheManager._load_index cache = Ok index ->
  In entry index ->
  selected query platforms entry = true ->
  CacheManager._load_page cache entry = Ok page ->
  exists pages, CacheManager.search_pages cache query platforms = Ok pages /\ In page pages.
Proof.
  intros Hload Hin Hs Hl. unfold CacheManager.search_pages. rewrite Hload.
  cbn [mbind result_bind]. eexists. split; [reflexivity|].
  rewrite sort_by_key_in, search_fold_in. right. eauto.
Qed.

(** X5. With a readable index [search_pages] does not raise, and its result
holds exactly the pages that load from the entries which pass the platform
filter and have the query in the name or the description (lower-cased); an
entry whose page does not load is passed over. *)
Theorem search_pages_members (cache : Cache.t) (index : list IndexEntry.t) (query : string)
  (platforms : list string) :
  CacheManager._load_index cache = Ok index ->
  exists pages,
    CacheManager.search_pages cache query platforms = Ok pages
    /\ forall page,
         In page pages
         <-> exists entry,
               In entry index
               /\ selected query platforms entry = true
               /\ CacheManager._load_page cache entry = Ok page.
Proof.
  intros Hload. unfold CacheManager.search_pages. rewrite Hload. cbn [mbind result_bind].
  eexists. split; [reflexivity|]. intros page.
  rewrite sort_by_key_in, search_fold_in. cbn [In]. tauto.
Qed.

Lemma search_pages_members_witness :
  CacheManager._load_index two_pages = Ok two_entries
  /\ exists pages,
       CacheManager.search_pages two_pages "tar" [] = Ok pages
       /\ forall page,
            In page pages
            <-> exists entry,
                  In entry two_entries
                  /\ selected "tar" [] entry = true
                  /\ CacheManager._load_page two_pages entry = Ok page.
Proof.
  split; [reflexivity|].
  apply (search_pages_members two_pages two_entries "tar" []). reflexivity.
Defined.

Lemma load_page_platform (cache : Cache.t) (entry : IndexEntry.t) (page : Page.t) :
  CacheManager._load_page cache entry = Ok page ->
  Page.examples page = []
  /\ Page.name page = IndexEntry.name entry
  /\ Page.platform page = IndexEntry.platform entry.
Proof.
  unfold CacheManager._load_page.
  destruct (Cache.page_files cache !! _); [|discriminate].
  intros H. apply parse_page_result in H. tauto.
Qed.

(** X6. With a platform list that is not empty, every page that
[search_pages] returns has a platform of the list. *)
Theorem search_pages_platform_filter (cache : Cache.t) (query : string)
  (platforms : list string) (pages : list Page.t) :
  platforms <> [] ->
  CacheManager.search_pages cache query platforms = Ok pages ->
  Forall (fun page => In (Page.platform page) platforms) pages.
Proof.
  intros Hne Hsearch. apply List.Forall_forall. intros page Hpage.
  destruct (search_pages_in _ _ _ _ _ Hsearch Hpage) as (entry & Hsel & Hl).
  apply load_page_platform in Hl as (_ & _ & ->).
  unfold selected in Hsel. apply andb_true_iff in Hsel as [Hp _].
  destruct platforms as [|p ps]; [congruence|]. cbn [orb] in Hp.
  apply existsb_exists in Hp as (x & Hx & Heq). apply String.eqb_eq in Heq. now subst.
Qed.

Lemma search_pages_platform_filter_witness :
  ["linux"] <> []
  /\ CacheManager.search_pages two_pages "tar" ["linux"] = Ok [bsdtar_page; tar_page]
  /\ Forall (fun page => In (Page.platform page) ["linux"]) [bsdtar_page; tar_page].
Proof.
  split; [discriminate|]. split; [vm_compute; reflexivity|].
  apply (search_pages_platform_filter two_pages "tar" ["linux"] [bsdtar_page; tar_page]).
  - discriminate.
  - vm_compute; reflexivity.
Defined.

Lemma contains_empty (s : string) : Str.contains EmptyString s = true.
Proof. destruct s; reflexivity. Qed.

(** X7. The empty query matches every entry: each page that loads, of an
entry whose platform passes the filter, is in the result. *)
Theorem search_pages_empty_query (cache : Cache.t) (index : list IndexEntry.t)
  (platforms : list string) (entry : IndexEntry.t) (page : Page.t) :
  CacheManager._load_index cache = Ok index ->
  In entry index ->
  (platforms = [] \/ In (IndexEntry.platform entry) platforms) ->
  CacheManager._load_page cache entry = Ok page ->
  exists pages, CacheManager.search_pages cache "" platforms = Ok pages /\ In page pages.
Proof.
  intros Hload Hentry Hplat Hpage.
  apply (search_pages_complete cache index "" platforms entry page); try assumption.
  unfold selected. cbn [Str.lower]. rewrite contains_empty. cbn [orb].
  rewrite andb_true_r. destruct Hplat as [->|Hp]; [reflexivity|].
  destruct platforms as [|p ps]; [reflexivity|]. cbn [orb].
  apply existsb_exists. exists (IndexEntry.platform entry). split; [assumption|].
  apply String.eqb_refl.
Qed.

Lemma search_pages_empty_query_witness :
  exists pages, CacheManager.search_pages two_pages "" ["linux"] = Ok pages /\ In tar_page pages.
Proof.
  apply (search_pages_empty_query two_pages two_entries ["linux"] tar_entry tar_page).
  - reflexivity.
  - left. reflexivity.
  - right. left. reflexivity.
  - reflexivity.
Defined.

(** ** Filling the cache *)


Lemma initialize_result_initialized (remote : Remote.t) (disk : Disk.t)
  (cache cache' : Cache.t) :
  CacheSync.initialize remote disk cache = Ok cache' -> CacheSync.is_initialized cache' = true.
Proof.
  unfold CacheSync.initialize.
  destruct (CacheSync.is_initialized cache) eqn:Hinit; [now intros [= <-]|].
  destruct (CacheSync._download_index remote); cbn [mbind result_bind]; [|discriminate].
  intros [= <-]. reflexivity.
Qed.

(** X12. After a successful [initialize], [update] and a further
[initialize] download nothing and leave the cache as it is, whatever the
catalogue has become. *)
Theorem update_after_initialize_changes_nothing (remote : Remote.t) (disk : Disk.t)
  (cache cache' : Cache.t) :
  CacheSync.initialize remote disk cache = Ok cache' ->
  forall remote' disk',
    CacheSync.update remote' disk' cache' = Ok cache'
    /\ CacheSync.initialize remote' disk' cache' = Ok cache'.
Proof.
  intros H remote' disk'. apply initialize_result_initialized in H.
  unfold CacheSync.update, CacheSync.initialize. now rewrite H.
Qed.

Lemma update_after_initialize_changes_nothing_witness :
  CacheSync.initialize tar_remote storing_disk empty_cache = Ok tar_cache
  /\ CacheSync.update tar_remote storing_disk tar_cache = Ok tar_cache
  /\ CacheSync.initialize tar_remote storing_disk tar_cache = Ok tar_cache.
Proof.
  split; [reflexivity|].
  apply (update_after_initialize_changes_nothing tar_remote storing_disk empty_cache tar_cache).
  reflexivity.
Defined.










(** ** The order of the search results *)

Lemma score_without_examples (page : Page.t) (query : string) :
  Page.examples page = [] ->
  CacheManager._calculate_relevance_score page query
  = (if String.eqb (Str.lower (Page.name page)) (Str.lower query) then 100
     else if Str.startswith (Str.lower (Page.name page)) (Str.lower query) then 50
     else if Str.contains (Str.lower query) (Str.lower (Page.name page)) then 25
     else 0)
    + (if Str.contains (Str.lower query) (Str.lower (Page.description page)) then 10 else 0).
Proof.
  intros H. unfold CacheManager._calculate_relevance_score. rewrite H. cbn [fold_left].
  destruct (String.eqb (Str.lower (Page.name page)) (Str.lower query));
    [|destruct (Str.startswith (Str.lower (Page.name page)) (Str.lower query));
      [|destruct (Str.contains (Str.lower query) (Str.lower (Page.name page)))]];
    destruct (Str.contains (Str.lower query) (Str.lower (Page.description page)));
    reflexivity.
Qed.

Lemma score_exact_name (page : Page.t) (query : string) :
  Page.examples page = [] ->
  (100 <= CacheManager._calculate_relevance_score page query
   <-> Str.lower (Page.name page) = Str.lower query).
Proof.
  intros H. rewrite (score_without_examples _ _ H).
  destruct (String.eqb_spec (Str.lower (Page.name page)) (Str.lower query)) as [Heq|Hne].
  - split; [auto|]. intros _.
    destruct (Str.contains (Str.lower query) (Str.lower (Page.description page))); lia.
  - split; [|contradiction]. intros Hs. exfalso.
    destruct (Str.startswith (Str.lower (Page.name page)) (Str.lower query));
      [|destruct (Str.contains (Str.lower query) (Str.lower (Page.name page)))];
      destruct (Str.contains (Str.lower query) (Str.lower (Page.description page))); lia.
Qed.

Lemma strongly_sorted_after {A : Type} (R : A -> A -> Prop) (pre post : list A) (x : A) :
  StronglySorted R (pre ++ x :: post) -> Forall (R x) post.
Proof.
  induction pre as [|y pre IH]; cbn [app]; intros H; inversion H; subst; auto.
Qed.

Lemma search_pages_no_examples (cache : Cache.t) (query : string) (platforms : list string)
  (pages : list Page.t) :
  CacheManager.search_pages cache query platforms = Ok pages ->
  Forall (fun page => Page.examples page = []) pages.
Proof.
  intros Hsearch. apply List.Forall_forall. intros page Hpage.
  destruct (search_pages_in _ _ _ _ _ Hsearch Hpage) as (entry & _ & Hl).
  now apply load_page_platform in Hl.
Qed.

(** X8. The order of the result of [search_pages], for every cache and
query: the scores never decrease along the list, and the pages whose name
is the query (lower-cased) come last, nothing but such pages following
one. *)
Theorem search_pages_best_match_last (cache : Cache.t) (query : string)
  (platforms : list string) (pages : list Page.t) :
  CacheManager.search_pages cache query platforms = Ok pages ->
  StronglySorted
    (fun a b => CacheManager._calculate_relevance_score a query
                <= CacheManager._calculate_relevance_score b query) pages
  /\ (forall pre page post,
         pages = pre ++ page :: post ->
         Str.lower (Page.name page) = Str.lower query ->
         Forall (fun later => Str.lower (Page.name later) = Str.lower query) post).
Proof.
  intros Hsearch. pose proof (search_pages_sorted _ _ _ _ Hsearch) as Hsorted.
  split; [assumption|].
  intros pre page post -> Hexact.
  pose proof (search_pages_no_examples _ _ _ _ Hsearch) as Hnone.
  apply strongly_sorted_after in Hsorted.
  apply Forall_app in Hnone as [_ Hnone]. inversion Hnone as [|? ? Hpage Hpost]; subst.
  apply (score_exact_name page query Hpage) in Hexact.
  apply List.Forall_forall. intros later Hin.
  rewrite List.Forall_forall in Hsorted, Hpost.
  apply (score_exact_name later query (Hpost later Hin)).
  specialize (Hsorted later Hin). cbn beta in Hsorted. lia.
Qed.

Lemma search_pages_best_match_last_witness :
  CacheManager.search_pages two_pages "tar" [] = Ok [bsdtar_page; tar_page]
  /\ StronglySorted
       (fun a b => CacheManager._calculate_relevance_score a "tar"
                   <= CacheManager._calculate_relevance_score b "tar")
       [bsdtar_page; tar_page]
  /\ (forall pre page post,
         [bsdtar_page; tar_page] = pre ++ page :: post ->
         Str.lower (Page.name page) = Str.lower "tar" ->
         Forall (fun later => Str.lower (Page.name later) = Str.lower "tar") post).
Proof.
  split; [vm_compute; reflexivity|].
  apply (search_pages_best_match_last two_pages "tar" [] [bsdtar_page; tar_page]).
  vm_compute; reflexivity.
Defined.

(** ** [_extract_placeholders] on a template with a token *)

(** X3. On a template in which the pattern finds a token,
[_extract_placeholders] raises [TypeError]: the first placeholder is built
with the keyword [type], which the constructor of [Placeholder] does not
have. *)
Theorem extract_placeholders_with_token_raises (command : string) :
  Re.findall_placeholders command <> [] ->
  CacheManager._extract_placeholders command
  = Raise (TypeError "got an unexpected keyword argument 'type'").
Proof.
  intros Hne. rewrite extract_placeholders_eq.
  destruct (Re.findall_placeholders command) as [|m ms]; [congruence|].
  cbn [Spec.first_occurrences Spec.map_result]. unfold CacheManager.new_placeholder.
  now rewrite placeholder_with_type_keyword.
Qed.

Lemma extract_placeholders_with_token_raises_witness :
  Re.findall_placeholders "tar -xf {{file}}" <> []
  /\ CacheManager._extract_placeholders "tar -xf {{file}}"
     = Raise (TypeError "got an unexpected keyword argument 'type'").
Proof.
  split; [discriminate|].
  apply (extract_placeholders_with_token_raises "tar -xf {{file}}"). discriminate.
Defined.

(** ** From [initialize] to [find_page] *)



(** ** The check for destructive commands *)

(** X13. A command is taken as destructive exactly when, lower-cased, it is
a verb of the list or starts with such a verb followed by a space. *)
Theorem is_destructive_command_iff (command : string) :
  App._is_destructive_command command = true
  <-> exists verb,
        In verb App.destructive_verbs
        /\ (Str.lower command = verb
            \/ exists arguments, Str.lower command = verb +:+ " " +:+ arguments).
Proof.
  unfold App._is_destructive_command. rewrite existsb_exists.
  split; intros (verb & Hin & H); exists verb; (split; [assumption|]).
  - apply orb_true_iff in H as [H|H].
    + right. apply startswith_spec in H as [r Hr]. exists r. now rewrite Hr, append_assoc.
    + left. now apply String.eqb_eq.
  - apply orb_true_iff. destruct H as [H|[r Hr]].
    + right. now apply String.eqb_eq.
    + left. apply startswith_spec. exists r. now rewrite Hr, append_assoc.
Qed.

Lemma is_destructive_command_iff_witness :
  App._is_destructive_command "RM -rf /tmp/x" = true.
Proof.
  apply (proj2 (is_destructive_command_iff "RM -rf /tmp/x")).
  exists "rm". split; [left; reflexivity|]. right. exists "-rf /tmp/x". reflexivity.
Defined.

(** X14. What the check never flags: a command that starts with a white
space character, one that starts with [sudo ], one that starts with a
slash, and a verb of the list followed by a tab. *)
Theorem destructive_check_is_evaded :
  (forall c rest, Str.isspace c = true -> App._is_destructive_command (String c rest) = false)
  /\ (forall rest, App._is_destructive_command ("sudo " +:+ rest) = false)
  /\ (forall rest, App._is_destructive_command (String "/" rest) = false)
  /\ Forall (fun verb =>
               forall rest,
                 App._is_destructive_command (verb +:+ String "009"%char rest) = false)
       App.destructive_verbs.
Proof.
  split; [|split; [|split]].
  - intros c rest H.
    destruct c as [[] [] [] [] [] [] [] []]; cbv in H; try discriminate H; reflexivity.
  - intros rest. reflexivity.
  - intros rest. reflexivity.
  - unfold App.destructive_verbs.
    repeat (constructor; [intros rest; reflexivity|]). constructor.
Qed.

Lemma destructive_check_is_evaded_witness :
  Str.isspace " " = true /\ App._is_destructive_command " rm -rf /" = false.
Proof.
  split; [reflexivity|].
  apply (proj1 destructive_check_is_evaded " "%char "rm -rf /"). reflexivity.
Defined.

(** ** [render_command] and [execute_command] *)

Lemma find_page_no_examples (cache : Cache.t) (command : string) (page : Page.t) :
  CacheManager.find_page cache command = Ok page -> Page.examples page = [].
Proof.
  unfold CacheManager.find_page.
  destruct (CacheManager._load_index cache) as [index|]; cbn [mbind result_bind];
    [|discriminate].
  destruct (List.find _ index) as [entry|].
  { intros H. now apply load_page_platform in H. }
  destruct (List.filter _ index) as [|m ms]; [discriminate|].
  destruct (CacheManager.sort_by_key _ _ (m :: ms)) as [|best rest]; [discriminate|].
  intros H. now apply load_page_platform in H.
Qed.

Lemma render_command_with_cache (cache : Cache.t)
  (render : Example.t -> gmap string string -> result string) (command : string)
  (variables : gmap string string) :
  App.render_command (CacheManager.find_page cache) render command variables
  = match CacheManager.find_page cache command with
    | Ok _ => Raise (ValueError ("No suitable example found for command: " +:+ command))
    | Raise e => Raise e
    end.
Proof.
  unfold App.render_command.
  destruct (CacheManager.find_page cache command) as [page|e] eqn:Hfind;
    cbn [mbind result_bind]; [|reflexivity].
  apply find_page_no_examples in Hfind.
  unfold PageMethods.find_best_example. now rewrite Hfind.
Qed.

(** X15. With the cache of the repository [App.render_command] never
returns a command, whatever [render] does: a page that [find_page] gives
has no example, so the call raises [ValueError] (no suitable example), and
an error of [find_page] is passed on. *)
Theorem render_command_never_returns (cache : Cache.t)
  (render : Example.t -> gmap string string -> result string) (command : string)
  (variables : gmap string string) :
  (exists e, App.render_command (CacheManager.find_page cache) render command variables = Raise e)
  /\ (forall page,
         CacheManager.find_page cache command = Ok page ->
         App.render_command (CacheManager.find_page cache) render command variables
         = Raise (ValueError ("No suitable example found for command: " +:+ command)))
  /\ (forall e,
         CacheManager.find_page cache command = Raise e ->
         App.render_command (CacheManager.find_page cache) render command variables = Raise e).
Proof.
  rewrite render_command_with_cache.
  destruct (CacheManager.find_page cache command) as [page|e].
  - split; [eauto|]. split; [reflexivity | discriminate].
  - split; [eauto|]. split; [discriminate | now intros e' [= ->]].
Qed.

Lemma render_command_never_returns_witness :
  CacheManager.find_page two_pages "tar" = Ok tar_page
  /\ App.render_command (CacheManager.find_page two_pages) rm_render "tar"
       {[ "file" := "a.tar" ]}
     = Raise (ValueError ("No suitable example found for command: " +:+ "tar")).
Proof.
  split; [vm_compute; reflexivity|].
  apply (proj1 (proj2 (render_command_never_returns two_pages rm_render "tar"
                         {[ "file" := "a.tar" ]}))
           tar_page).
  vm_compute; reflexivity.
Defined.

Section Execute.
Variable find_page : string -> result Page.t.
Variable render : Example.t -> gmap string string -> result string.

Lemma execute_command_raises (confirm : bool) (command : string)
  (variables : gmap string string) (w : App.World) (e : exn) :
  App.render_command find_page render command variables = Raise e ->
  App.execute_command find_page render confirm command variables w = (App.Raised e, w).
Proof.
  unfold App.render_command, App.execute_command.
  destruct (find_page command) as [page|e']; cbn [mbind result_bind]; [|now intros [= ->]].
  destruct (PageMethods.find_best_example page command) as [example|]; [|now intros [= <-]].
  destruct (render example variables); [discriminate | now intros [= ->]].
Qed.

Lemma execute_command_rendered (confirm : bool) (command : string)
  (variables : gmap string string) (w : App.World) (rendered : string) :
  App.render_command find_page render command variables = Ok rendered ->
  App.execute_command find_page render confirm command variables w
  = if App._is_destructive_command rendered && confirm then
      match App.stdin w with
      | [] => (App.EndOfInput, w)
      | response :: rest =>
          let w' := App.MkWorld rest (App.shell w) (App.executed w) (App.log_writable w)
                      (App.exec_log w) in
          if negb (existsb (String.eqb (Str.lower response)) ["y"; "yes"])
          then (App.Returned, w')
          else App.run_and_log rendered w'
      end
    else App.run_and_log rendered w.
Proof.
  unfold App.render_command, App.execute_command.
  destruct (find_page command) as [page|e']; cbn [mbind result_bind]; [|discriminate].
  destruct (PageMethods.find_best_example page command) as [example|]; [|discriminate].
  destruct (render example variables); [now intros [= ->] | discriminate].
Qed.


Lemma run_and_log_effects (rendered : string) (w : App.World) :
  let '(o, w') := App.run_and_log rendered w in
  App.stdin w' = App.stdin w
  /\ (App.executed w' = App.executed w \/ App.executed w' = App.executed w ++ [rendered])
  /\ (App.exec_log w' = App.exec_log w
      \/ (o = App.Returned /\ App.shell w rendered = 0
          /\ App.executed w' = App.executed w ++ [rendered]
          /\ App.exec_log w' = App.exec_log w +:+ rendered +:+ String "010"%char EmptyString))
  /\ (forall code, o = App.Exited code ->
                   code <> 0 /\ App.shell w rendered = code
                   /\ App.exec_log w' = App.exec_log w).
Proof.
  unfold App.run_and_log.
  destruct (Str.contains _ rendered).
  { split; [reflexivity|]. split; [auto|]. split; [auto|]. discriminate. }
  destruct (Z.eqb_spec (App.shell w rendered) 0) as [Hz|Hnz].
  - unfold App._log_execution. cbn [App.log_writable App.stdin App.executed App.exec_log].
    destruct (App.log_writable w); cbn [App.stdin App.executed App.exec_log];
      (split; [reflexivity|]; split; [auto|]; split; [auto 6|]; discriminate).
  - cbn [App.stdin App.executed App.exec_log].
    split; [reflexivity|]. split; [auto|]. split; [auto|].
    intros code [= <-]. auto.
Qed.

(** X18. [execute_command] runs at most one command, the rendered one; and
when that command is destructive and confirmation is on, it is run only
after the answer [y] or [yes] (in any case) was read. *)
Theorem execute_command_confirmation (confirm : bool) (command : string)
  (variables : gmap string string) (w w' : App.World) (o : App.outcome) :
  App.execute_command find_page render confirm command variables w = (o, w') ->
  App.executed w' = App.executed w
  \/ exists rendered,
       App.render_command find_page render command variables = Ok rendered
       /\ App.executed w' = App.executed w ++ [rendered]
       /\ (App._is_destructive_command rendered = true -> confirm = true ->
           exists response rest,
             App.stdin w = response :: rest
             /\ (Str.lower response = "y" \/ Str.lower response = "yes")).
Proof.
  destruct (App.render_command find_page render command variables) as [rendered|e] eqn:Hr.
  2:{ rewrite (execute_command_raises _ _ _ _ _ Hr). intros [= <- <-]. now left. }
  rewrite (execute_command_rendered _ _ _ _ _ Hr).
  destruct (App._is_destructive_command rendered && confirm) eqn:Hgate.
  - destruct (App.stdin w) as [|response rest] eqn:Hin; [intros [= <- <-]; now left|].
    cbn [existsb]. rewrite orb_false_r.
    destruct (String.eqb_spec (Str.lower response) "y") as [Hy|Hy];
      destruct (String.eqb_spec (Str.lower response) "yes") as [Hyes|Hyes];
      cbn [orb negb]; try (intros [= <- <-]; now left).
    all: intros Hrun;
      pose proof (run_and_log_effects rendered
                    (App.MkWorld rest (App.shell w) (App.executed w) (App.log_writable w)
                       (App.exec_log w))) as He;
      rewrite Hrun in He;
      cbn [App.stdin App.executed App.exec_log App.shell] in He;
      destruct He as (_ & [He|He] & _);
      [now left
      | right; exists rendered; split; [reflexivity|]; split; [assumption|];
        intros _ _; exists response, rest; split; [reflexivity | auto]].
  - intros Hrun. pose proof (run_and_log_effects rendered w) as He. rewrite Hrun in He.
    destruct He as (_ & [He|He] & _); [now left|].
    right. exists rendered. split; [reflexivity|]. split; [assumption|].
    intros Hd Hc. rewrite Hd, Hc in Hgate. discriminate.
Qed.

(** X19. The audit log after [execute_command]: either unchanged, or the
rendered command and a newline are appended, which happens only when the
command was run with exit status 0 and the call returned.  When the call
exits with a status, the status is the non-zero one of the command and the
log is unchanged. *)
Theorem execute_command_log (confirm : bool) (command : string)
  (variables : gmap string string) (w w' : App.World) (o : App.outcome) :
  App.execute_command find_page render confirm command variables w = (o, w') ->
  (App.exec_log w' = App.exec_log w
   \/ exists rendered,
        App.render_command find_page render command variables = Ok rendered
        /\ o = App.Returned
        /\ App.shell w rendered = 0
        /\ App.executed w' = App.executed w ++ [rendered]
        /\ App.exec_log w' = App.exec_log w +:+ rendered +:+ String "010"%char EmptyString)
  /\ (forall code,
         o = App.Exited code ->
         code <> 0
         /\ App.exec_log w' = App.exec_log w
         /\ exists rendered,
              App.render_command find_page render command variables = Ok rendered
              /\ App.shell w rendered = code).
Proof.
  destruct (App.render_command find_page render command variables) as [rendered|e] eqn:Hr.
  2:{ rewrite (execute_command_raises _ _ _ _ _ Hr). intros [= <- <-].
      split; [now left | discriminate]. }
  rewrite (execute_command_rendered _ _ _ _ _ Hr).
  assert (Hrun : forall w0,
             App.shell w0 = App.shell w -> App.executed w0 = App.executed w ->
             App.exec_log w0 = App.exec_log w ->
             App.run_and_log rendered w0 = (o, w') ->
             (App.exec_log w' = App.exec_log w
              \/ exists rendered0,
                   Ok rendered = Ok rendered0
                   /\ o = App.Returned
                   /\ App.shell w rendered0 = 0
                   /\ App.executed w' = App.executed w ++ [rendered0]
                   /\ App.exec_log w' = App.exec_log w +:+ rendered0
                                         +:+ String "010"%char EmptyString)
             /\ (forall code,
                    o = App.Exited code ->
                    code <> 0
                    /\ App.exec_log w' = App.exec_log w
                    /\ exists rendered0,
                         Ok rendered = Ok rendered0 /\ App.shell w rendered0 = code)).
  { intros w0 Hsh Hex Hlog Hrun. pose proof (run_and_log_effects rendered w0) as He.
    rewrite Hrun, Hsh, Hex, Hlog in He. destruct He as (_ & _ & Hl & Hc). split.
    - destruct Hl as [Hl|(Ho & Hz & Hx & Hl')]; [now left|].
      right. exists rendered. auto 6.
    - intros code Ho. destruct (Hc code Ho) as (Hnz & Hcode & Hlog'). eauto 6. }
  destruct (App._is_destructive_command rendered && confirm).
  - destruct (App.stdin w) as [|response rest];
      [intros [= <- <-]; split; [now left | discriminate]|].
    destruct (negb _); [intros [= <- <-]; split; [now left | discriminate]|].
    now apply Hrun.
  - now apply Hrun.
Qed.
End Execute.

Lemma execute_command_log_witness :
  App.execute_command rm_cache rm_render false "rm" {[ "file" := "notes.txt" ]}
    (App.MkWorld [] (fun _ => 1) [] true "")
  = (App.Exited 1, App.MkWorld [] (fun _ => 1) ["rm notes.txt"] true "")
  /\ forall code,
       App.Exited 1 = App.Exited code ->
       code <> 0
       /\ App.exec_log (App.MkWorld [] (fun _ => 1) ["rm notes.txt"] true "")
          = App.exec_log (App.MkWorld [] (fun _ => 1) [] true "")
       /\ exists rendered,
            App.render_command rm_cache rm_render "rm" {[ "file" := "notes.txt" ]} = Ok rendered
            /\ App.shell (App.MkWorld [] (fun _ => 1) [] true "") rendered = code.
Proof.
  split; [reflexivity|].
  apply (execute_command_log rm_cache rm_render false "rm" {[ "file" := "notes.txt" ]}
           (App.MkWorld [] (fun _ => 1) [] true "")
           (App.MkWorld [] (fun _ => 1) ["rm notes.txt"] true "")
           (App.Exited 1)).
  reflexivity.
Defined.

Lemma execute_command_confirmation_witness :
  App.execute_command rm_cache rm_render true "rm" {[ "file" := "notes.txt" ]} (world_answering "Yes")
  = (App.Returned,
     App.MkWorld [] (fun _ => 0) ["rm notes.txt"] true ("rm notes.txt" +:+ LF))
  /\ (["rm notes.txt"] = []
      \/ exists rendered,
           App.render_command rm_cache rm_render "rm" {[ "file" := "notes.txt" ]} = Ok rendered
           /\ ["rm notes.txt"] = [] ++ [rendered]
           /\ (App._is_destructive_command rendered = true -> true = true ->
               exists response rest,
                 ["Yes"] = response :: rest
                 /\ (Str.lower response = "y" \/ Str.lower response = "yes"))).
Proof.
  split; [reflexivity|].
  apply (execute_command_confirmation rm_cache rm_render true "rm" {[ "file" := "notes.txt" ]}
           (world_answering "Yes")
           (App.MkWorld [] (fun _ => 0) ["rm notes.txt"] true ("rm notes.txt" +:+ LF))
           App.Returned).
  reflexivity.
Defined.


(** X16. With the cache of the repository [App.execute_command] raises
before it asks or runs anything: the world is left as it was. *)
Theorem execute_command_with_cache_runs_nothing (cache : Cache.t)
  (render : Example.t -> gmap string string -> result string) (confirm : bool)
  (command : string) (variables : gmap string string) (w : App.World) :
  exists e,
    App.execute_command (CacheManager.find_page cache) render confirm command variables w
    = (App.Raised e, w).
Proof.
  pose proof (render_command_with_cache cache render command variables) as H.
  destruct (CacheManager.find_page cache command) as [page|e];
    eexists; apply execute_command_raises; exact H.
Qed.

(** ** The variables of the command line *)

Lemma contains_char_cons (c d : ascii) (t : string) :
  Str.contains (String c EmptyString) (String d t)
  = Ascii.eqb d c || Str.contains (String c EmptyString) t.
Proof. cbn [Str.contains Str.startswith]. now destruct (Ascii.eqb d c). Qed.

Lemma contains_char_nil (c : ascii) : Str.contains (String c EmptyString) EmptyString = false.
Proof. reflexivity. Qed.

Lemma contains_char_app (c : ascii) (a b : string) :
  Str.contains (String c EmptyString) (a +:+ b)
  = Str.contains (String c EmptyString) a || Str.contains (String c EmptyString) b.
Proof.
  induction a as [|d a IH].
  - now rewrite append_nil_l, contains_char_nil.
  - now rewrite append_cons, !contains_char_cons, IH, orb_assoc.
Qed.

Lemma split_app (sep : ascii) (a b : string) :
  Cli.split sep (a +:+ String sep b) = Cli.split sep a ++ Cli.split sep b.
Proof.
  unfold Cli.split. induction a as [|c a IH].
  - rewrite append_nil_l. cbn [Cli.split_aux]. rewrite Ascii.eqb_refl.
    now destruct (Cli.split_aux sep b).
  - rewrite append_cons. cbn [Cli.split_aux].
    destruct (Cli.split_aux sep (a +:+ String sep b)) as [f o].
    destruct (Cli.split_aux sep a) as [f' o'].
    cbn [app] in IH. injection IH as -> ->.
    now destruct (Ascii.eqb c sep).
Qed.

Lemma split_without_separator (sep : ascii) (s : string) :
  Str.contains (String sep EmptyString) s = false -> Cli.split sep s = [s].
Proof.
  unfold Cli.split. induction s as [|c s IH]; [reflexivity|].
  rewrite contains_char_cons. intros H. apply orb_false_elim in H as [Hc Hs].
  cbn [Cli.split_aux]. specialize (IH Hs).
  destruct (Cli.split_aux sep s) as [f o]. injection IH as -> ->. now rewrite Hc.
Qed.

Lemma split_parts (sep : ascii) (s : string) :
  Forall (fun part => Str.contains (String sep EmptyString) part = false) (Cli.split sep s).
Proof.
  unfold Cli.split. induction s as [|c s IH]; [repeat constructor|].
  cbn [Cli.split_aux]. destruct (Cli.split_aux sep s) as [f o].
  destruct (Ascii.eqb c sep) eqn:Hc.
  - constructor; [reflexivity | assumption].
  - inversion IH as [|? ? Hf Ho]; subst. constructor; [|assumption].
    now rewrite contains_char_cons, Hc, Hf.
Qed.

Lemma split_once_app (sep : ascii) (key value : string) :
  Str.contains (String sep EmptyString) key = false ->
  Cli.split_once sep (key +:+ String sep value) = (key, value).
Proof.
  induction key as [|c key IH].
  - intros _. rewrite append_nil_l. cbn [Cli.split_once]. now rewrite Ascii.eqb_refl.
  - rewrite contains_char_cons. intros H. apply orb_false_elim in H as [Hc Hk].
    rewrite append_cons. cbn [Cli.split_once]. now rewrite Hc, (IH Hk).
Qed.

(** What [split_once] returns for a string that has the separator. *)
Lemma split_once_spec (sep : ascii) (s : string) :
  Str.contains (String sep EmptyString) s = true ->
  let '(before, after) := Cli.split_once sep s in
  s = before +:+ String sep after /\ Str.contains (String sep EmptyString) before = false.
Proof.
  induction s as [|c s IH]; [discriminate|].
  rewrite contains_char_cons. cbn [Cli.split_once].
  destruct (Ascii.eqb_spec c sep) as [->|Hc].
  - intros _. split; [now rewrite append_nil_l | reflexivity].
  - cbn [orb]. intros Hs. specialize (IH Hs).
    destruct (Cli.split_once sep s) as [before after]. destruct IH as [-> Hb].
    split; [now rewrite append_cons|].
    rewrite contains_char_cons, Hb. now apply Ascii.eqb_neq in Hc as ->.
Qed.

Lemma add_pair_union (variables : gmap string string) (pair : string) :
  Cli.add_pair variables pair = Cli.add_pair ∅ pair ∪ variables.
Proof.
  unfold Cli.add_pair. destruct (Str.contains "=" pair).
  - destruct (Cli.split_once "=" pair) as [key value].
    now rewrite insert_union_singleton_l, insert_empty.
  - now rewrite (left_id_L ∅ (∪)).
Qed.

Lemma fold_add_pair_union (pairs : list string) (variables : gmap string string) :
  fold_left Cli.add_pair pairs variables = fold_left Cli.add_pair pairs ∅ ∪ variables.
Proof.
  revert variables. induction pairs as [|pair pairs IH]; intros variables; cbn [fold_left].
  - now rewrite (left_id_L ∅ (∪)).
  - rewrite (IH (Cli.add_pair variables pair)), (IH (Cli.add_pair ∅ pair)).
    now rewrite (add_pair_union variables pair), (assoc_L (∪)).
Qed.

Lemma parse_vars_fold (s : string) :
  Cli.parse_vars (Some s) = fold_left Cli.add_pair (Cli.split "," s) ∅.
Proof. destruct s; reflexivity. Qed.

Lemma fold_pairs_append (a b : string) :
  fold_left Cli.add_pair (Cli.split "," (a +:+ String "," b)) ∅
  = fold_left Cli.add_pair (Cli.split "," b) ∅ ∪ fold_left Cli.add_pair (Cli.split "," a) ∅.
Proof. now rewrite split_app, fold_left_app, fold_add_pair_union. Qed.

(** X20. The pairs of [--vars] are read from left to right and a later pair
overrides an earlier one with the same key: the variables of [a,b] are
those of [b], completed by those of [a]. *)
Theorem parse_vars_later_pairs_win (a b : string) :
  Cli.parse_vars (Some (a +:+ "," +:+ b)) = Cli.parse_vars (Some b) ∪ Cli.parse_vars (Some a).
Proof.
  rewrite !parse_vars_fold. change ("," +:+ b) with (String "," b).
  apply fold_pairs_append.
Qed.

(** X21. A single pair [key=value], with a key that has no [=] and no
comma and a value that has no comma, binds the stripped key to the stripped
value; the value may contain [=]. *)
Theorem parse_vars_single_pair (key value : string) :
  Str.contains "=" key = false ->
  Str.contains "," key = false ->
  Str.contains "," value = false ->
  Cli.parse_vars (Some (key +:+ "=" +:+ value)) = {[ Str.strip key := Str.strip value ]}.
Proof.
  intros Heq Hck Hcv. rewrite parse_vars_fold.
  change ("=" +:+ value) with (String "=" value).
  rewrite split_without_separator.
  2:{ rewrite contains_char_app, Hck, contains_char_cons, Hcv. reflexivity. }
  cbn [fold_left]. unfold Cli.add_pair.
  rewrite contains_char_app, contains_char_cons, Ascii.eqb_refl, orb_true_r.
  rewrite (split_once_app "=" key value Heq). now rewrite insert_empty.
Qed.

Lemma parse_vars_single_pair_witness :
  Cli.parse_vars (Some (" file " +:+ "=" +:+ " a=b.tar "))
  = {[ Str.strip " file " := Str.strip " a=b.tar " ]}.
Proof.
  apply (parse_vars_single_pair " file " " a=b.tar "); reflexivity.
Defined.

(** X22. A part of [--vars] without [=] is dropped without an error,
before or after the other parts. *)
Theorem parse_vars_ignores_bare_words (a word : string) :
  Str.contains "=" word = false ->
  Str.contains "," word = false ->
  Cli.parse_vars (Some (a +:+ "," +:+ word)) = Cli.parse_vars (Some a)
  /\ Cli.parse_vars (Some (word +:+ "," +:+ a)) = Cli.parse_vars (Some a).
Proof.
  intros Heq Hc.
  assert (Hw : fold_left Cli.add_pair (Cli.split "," word) ∅ = ∅).
  { rewrite (split_without_separator _ _ Hc). cbn [fold_left].
    unfold Cli.add_pair. now rewrite Heq. }
  rewrite !parse_vars_fold.
  change ("," +:+ word) with (String "," word). change ("," +:+ a) with (String "," a).
  rewrite !fold_pairs_append, Hw.
  split; [apply (left_id_L ∅ (∪)) | apply (right_id_L ∅ (∪))].
Qed.

Lemma parse_vars_ignores_bare_words_witness :
  Cli.parse_vars (Some ("file=a.tar" +:+ "," +:+ "verbose"))
  = Cli.parse_vars (Some "file=a.tar").
Proof.
  apply (proj1 (parse_vars_ignores_bare_words "file=a.tar" "verbose" eq_refl eq_refl)).
Defined.

(** Stripping *)

Lemma lstrip_contains (c : ascii) (s : string) :
  Str.contains (String c EmptyString) s = false ->
  Str.contains (String c EmptyString) (Str.lstrip s) = false.
Proof.
  induction s as [|d s IH]; [reflexivity|].
  intros H. cbn [Str.lstrip]. destruct (Str.isspace d); [|assumption].
  rewrite contains_char_cons in H. apply orb_false_elim in H as [_ H]. auto.
Qed.

Lemma rstrip_contains (c : ascii) (s : string) :
  Str.contains (String c EmptyString) s = false ->
  Str.contains (String c EmptyString) (Str.rstrip s) = false.
Proof.
  induction s as [|d s IH]; [reflexivity|].
  rewrite contains_char_cons. intros H. apply orb_false_elim in H as [Hd Hs].
  cbn [Str.rstrip]. specialize (IH Hs).
  destruct (Str.rstrip s) as [|e r].
  - destruct (Str.isspace d); [reflexivity|]. now rewrite contains_char_cons, Hd.
  - now rewrite contains_char_cons, Hd, IH.
Qed.

Lemma strip_contains (c : ascii) (s : string) :
  Str.contains (String c EmptyString) s = false ->
  Str.contains (String c EmptyString) (Str.strip s) = false.
Proof. intros H. unfold Str.strip. now apply rstrip_contains, lstrip_contains. Qed.

Lemma rstrip_idempotent (s : string) : Str.rstrip (Str.rstrip s) = Str.rstrip s.
Proof.
  induction s as [|d s IH]; [reflexivity|].
  cbn [Str.rstrip]. destruct (Str.rstrip s) as [|e r] eqn:Hr.
  - destruct (Str.isspace d) eqn:Hd; [reflexivity|].
    cbn [Str.rstrip]. now rewrite Hd.
  - change (Str.rstrip (String d (String e r))) with
      (match Str.rstrip (String e r) with
       | EmptyString => if Str.isspace d then EmptyString else String d EmptyString
       | x => String d x
       end).
    now rewrite IH.
Qed.

Lemma lstrip_head (s : string) :
  match Str.lstrip s with
  | EmptyString => True
  | String c _ => Str.isspace c = false
  end.
Proof.
  induction s as [|d s IH]; [exact I|].
  cbn [Str.lstrip]. destruct (Str.isspace d) eqn:Hd; [assumption | exact Hd].
Qed.

Lemma rstrip_keeps_head (c : ascii) (t : string) :
  Str.isspace c = false -> exists r, Str.rstrip (String c t) = String c r.
Proof.
  intros Hc. cbn [Str.rstrip]. destruct (Str.rstrip t) as [|e r]; [|eauto].
  rewrite Hc. eauto.
Qed.

Lemma strip_idempotent (s : string) : Str.strip (Str.strip s) = Str.strip s.
Proof.
  unfold Str.strip. pose proof (lstrip_head s) as Hh.
  destruct (Str.lstrip s) as [|c t]; [reflexivity|].
  destruct (rstrip_keeps_head c t Hh) as [r Hr]. rewrite Hr.
  cbn [Str.lstrip]. rewrite Hh, <- Hr. apply rstrip_idempotent.
Qed.

Lemma add_pair_clean (variables : gmap string string) (pair : string) :
  Str.contains "," pair = false ->
  map_Forall clean_binding variables ->
  map_Forall clean_binding (Cli.add_pair variables pair).
Proof.
  intros Hc Hm. unfold Cli.add_pair.
  destruct (Str.contains "=" pair) eqn:Heq; [|assumption].
  pose proof (split_once_spec "=" pair Heq) as Hs.
  destruct (Cli.split_once "=" pair) as [key value]. destruct Hs as [-> Hk].
  rewrite contains_char_app, contains_char_cons in Hc.
  apply orb_false_elim in Hc as [Hck Hcv]. cbn [Ascii.eqb orb] in Hcv.
  apply map_Forall_insert_2; [|assumption].
  repeat split; auto using strip_contains, strip_idempotent.
Qed.

(** X23. What the variables read from [--vars] never hold: a key with [=]
or a comma, a value with a comma, a key or a value with white space at
either end. *)
Theorem parse_vars_bindings (vars : option string) (key value : string) :
  Cli.parse_vars vars !! key = Some value ->
  Str.contains "=" key = false
  /\ Str.contains "," key = false
  /\ Str.contains "," value = false
  /\ Str.strip key = key
  /\ Str.strip value = value.
Proof.
  assert (H : forall pairs variables,
             Forall (fun part => Str.contains "," part = false) pairs ->
             map_Forall clean_binding variables ->
             map_Forall clean_binding (fold_left Cli.add_pair pairs variables)).
  { induction pairs as [|pair pairs IH]; intros variables Hp Hm; [assumption|].
    inversion Hp; subst. cbn [fold_left]. apply IH; [assumption|].
    now apply add_pair_clean. }
  destruct vars as [s|]; [|cbn [Cli.parse_vars]; now rewrite lookup_empty].
  rewrite parse_vars_fold.
  intros Hl. exact (H _ _ (split_parts "," s) (map_Forall_empty _) key value Hl).
Qed.

Lemma parse_vars_bindings_witness :
  Cli.parse_vars (Some " file = a.tar ,n=1") !! "file" = Some "a.tar"
  /\ Str.contains "=" "file" = false
  /\ Str.contains "," "file" = false
  /\ Str.contains "," "a.tar" = false
  /\ Str.strip "file" = "file"
  /\ Str.strip "a.tar" = "a.tar".
Proof.
  split; [vm_compute; reflexivity|].
  apply (parse_vars_bindings (Some " file = a.tar ,n=1") "file" "a.tar").
  vm_compute; reflexivity.
Defined.
